(** * MySQL Explorer gateway (server.py): a shallow embedding and its properties

    The development follows [server.py]:
    - [PyStr]: the [str] operations the handlers use ([strip], [lower],
      [startswith], [in], [replace], [join], decimal formatting);
    - [Py]: the Python values a cursor hands back, exceptions and results;
    - the server behind the pool, as answers to statements, and the events
      of a handler; [Scripted], a small scripted server;
    - [Gateway]: the effect monad (database state passing, an event trace,
      exceptions), the handlers [get_table_schema], [get_relationships],
      [query_data] and [table_statistics], statement for statement, and
      their properties;
    - [Shop]: the handlers run on a scripted database; [Keys]: a server
      that answers the key-usage selection from a list of key usages;
      [Faults]: a server on which [json.dumps] and the rounding fail;
    - [Lifespan]: the generator [app_lifespan] that owns the pool;
      [Catalog]: further runs, for [get_all_tables] and [list_schemas].

    A Python [str] is modelled by the Rocq [string] of its UTF-8 bytes. *)

From Stdlib Require Import String Ascii List ZArith NArith Bool Arith Lia.
From Stdlib Require Import Permutation.
Import ListNotations.
Open Scope string_scope.
Set Warnings "-register-all".

(* ================================================================== *)
(** ** Python strings *)

Module PyStr.

(** The one-character string with the given code. *)
Definition chr (n : nat) : string := String (ascii_of_nat n) EmptyString.

Definition NL : string := chr 10.
Definition DQUOTE : string := chr 34.

(** [n] spaces: the indentation inside the triple-quoted f-strings. *)
Fixpoint spaces (n : nat) : string :=
  match n with
  | O => EmptyString
  | S k => String " " (spaces k)
  end.

(** [str.lower()].  On the ASCII range this is Python's mapping; bytes of
    other characters are left as they are.  The handlers only ever test the
    lowered text for the ASCII tokens [select], [limit] and the type tokens,
    and no character outside ASCII lowers to a text in which such a token
    starts or continues (U+0130 lowers to [i] followed by U+0307, U+212A to
    [k]; no token ends in [i] or contains [k]). *)
Definition is_upper (c : ascii) : bool :=
  let n := nat_of_ascii c in (65 <=? n)%nat && (n <=? 90)%nat.

Definition lower_char (c : ascii) : ascii :=
  if is_upper c then ascii_of_nat (nat_of_ascii c + 32) else c.

Fixpoint lower (s : string) : string :=
  match s with
  | EmptyString => EmptyString
  | String c t => String (lower_char c) (lower t)
  end.

(** [p] is a prefix of [s]. *)
Fixpoint is_prefix (p s : string) : bool :=
  match p, s with
  | EmptyString, _ => true
  | String a p', String b s' => Ascii.eqb a b && is_prefix p' s'
  | String _ _, EmptyString => false
  end.

(** [s.startswith(p)]. *)
Definition startswith (s p : string) : bool := is_prefix p s.

(** [pat in s]. *)
Fixpoint contains (pat s : string) : bool :=
  is_prefix pat s ||
  match s with
  | EmptyString => false
  | String _ t => contains pat t
  end.

(** The number of positions of [s] at which [pat] starts. *)
Fixpoint occurrences (pat s : string) : nat :=
  (if is_prefix pat s then 1 else 0) +
  match s with
  | EmptyString => 0
  | String _ t => occurrences pat t
  end.

(** Whitespace as [str.strip()] sees it (Py_UNICODE_ISSPACE), read off the
    UTF-8 bytes: U+0009..000D, U+001C..001F, U+0020, U+0085, U+00A0, U+1680,
    U+2000..200A, U+2028, U+2029, U+202F, U+205F, U+3000.  [ws_len s] is the
    number of bytes of the whitespace character [s] starts with, [0] when it
    starts with none. *)
Definition is_ascii_space (a : ascii) : bool :=
  let n := nat_of_ascii a in
  ((9 <=? n) && (n <=? 13) || (28 <=? n) && (n <=? 32))%nat.

Definition ws_len (s : string) : nat :=
  match s with
  | EmptyString => 0
  | String a r =>
    if is_ascii_space a then 1 else
    match r with
    | EmptyString => 0
    | String b r' =>
      let x := nat_of_ascii a in
      let y := nat_of_ascii b in
      if ((x =? 194) && ((y =? 133) || (y =? 160)))%nat then 2 else
      match r' with
      | EmptyString => 0
      | String c _ =>
        let z := nat_of_ascii c in
        if ((x =? 225) && (y =? 154) && (z =? 128)
            || (x =? 226) && (y =? 128)
               && ((128 <=? z) && (z <=? 138) || (z =? 168) || (z =? 169)
                   || (z =? 175))
            || (x =? 226) && (y =? 129) && (z =? 159)
            || (x =? 227) && (y =? 128) && (z =? 128))%nat
        then 3 else 0
      end
    end
  end.

Fixpoint drop (n : nat) (s : string) : string :=
  match n, s with
  | S k, String _ t => drop k t
  | _, _ => s
  end.

Fixpoint lstrip_from (fuel : nat) (s : string) : string :=
  match fuel with
  | O => s
  | S f =>
    match ws_len s with
    | O => s
    | n => lstrip_from f (drop n s)
    end
  end.

Definition lstrip (s : string) : string := lstrip_from (String.length s) s.

(** A string made of whitespace only. *)
Definition all_ws (s : string) : bool := String.eqb (lstrip s) EmptyString.

Fixpoint rstrip (s : string) : string :=
  match s with
  | EmptyString => EmptyString
  | String a t => if all_ws s then EmptyString else String a (rstrip t)
  end.

(** [s.strip()]. *)
Definition strip (s : string) : string := rstrip (lstrip s).

(** [s.replace("|", "\\|")]. *)
Fixpoint escape_pipe (s : string) : string :=
  match s with
  | EmptyString => EmptyString
  | String c t =>
    if Ascii.eqb c "|" then String "\" (String "|" (escape_pipe t))
    else String c (escape_pipe t)
  end.

(** [sep.join(xs)]. *)
Definition join (sep : string) (xs : list string) : string :=
  String.concat sep xs.

(** Decimal text of an integer, as [str(n)] and [f"{n}"] give it. *)
Definition digit (d : N) : ascii := ascii_of_N (48 + d).

Fixpoint dec_digits (fuel : nat) (n : N) (acc : string) : string :=
  match fuel with
  | O => acc
  | S f =>
    let acc' := String (digit (n mod 10)) acc in
    if (n / 10 =? 0)%N then acc' else dec_digits f (n / 10) acc'
  end.

Definition dec_of_N (n : N) : string :=
  dec_digits (S (N.to_nat (N.log2 n))) n EmptyString.

Definition dec_of_Z (z : Z) : string :=
  match z with
  | Z0 => "0"
  | Zpos p => dec_of_N (Npos p)
  | Zneg p => String "-" (dec_of_N (Npos p))
  end.

Definition dec_of_nat (n : nat) : string := dec_of_N (N.of_nat n).

(** The characters of a decimal text. *)
Definition dec_char (c : ascii) : bool :=
  Ascii.eqb c "-" || ((48 <=? nat_of_ascii c) && (nat_of_ascii c <=? 57))%nat.

Fixpoint all_chars (p : ascii -> bool) (s : string) : bool :=
  match s with
  | EmptyString => true
  | String c t => p c && all_chars p t
  end.

(** Every [|] of [s] comes right after a backslash; [prev] is the character
    before [s]. *)
Fixpoint pipes_escaped_from (prev : ascii) (s : string) : bool :=
  match s with
  | EmptyString => true
  | String c t =>
    (negb (Ascii.eqb c "|") || Ascii.eqb prev "\") && pipes_escaped_from c t
  end.

Definition pipes_escaped (s : string) : bool := pipes_escaped_from " " s.

(** The reading of an escaped cell: [\|] stands for [|]. *)
Fixpoint unescape_pipe (s : string) : string :=
  match s with
  | EmptyString => EmptyString
  | String c t =>
    match t with
    | String d t' =>
      if Ascii.eqb c "\" && Ascii.eqb d "|"
      then String "|" (unescape_pipe t')
      else String c (unescape_pipe t)
    | EmptyString => String c EmptyString
    end
  end.

End PyStr.

Import PyStr.

Example strip_ex : strip ("  " ++ NL ++ "Select 1 " ++ chr 9) = "Select 1".
Proof. reflexivity. Qed.

Example strip_nbsp_ex : strip (chr 194 ++ chr 160 ++ "x" ++ chr 227 ++ chr 128 ++ chr 128) = "x".
Proof. reflexivity. Qed.

Example strip_blank_ex : strip ("   " ++ NL) = "" /\ strip "a  b" = "a  b".
Proof. split; reflexivity. Qed.

Example lower_ex : lower "SeLeCT * FROM T" = "select * from t".
Proof. reflexivity. Qed.

Example dec_ex : map dec_of_Z [0; 7; 100; -42; 1234567890]%Z
                 = ["0"; "7"; "100"; "-42"; "1234567890"].
Proof. reflexivity. Qed.

Example escape_ex : escape_pipe "a|b||" = "a\|b\|\|".
Proof. reflexivity. Qed.

Example join_ex : join " | " ["a"; "b"; "c"] = "a | b | c" /\ join ", " [] = "".
Proof. split; reflexivity. Qed.

(* ================================================================== *)
(** ** Python values, exceptions and results *)

Module Py.

(** What a cursor hands back in a row, kept by what the handlers observe of
    it: its class (for [is None] and [isinstance]), its truth value and its
    [str()].  [VObj cls truth text] is an object of any other class
    ([Decimal], [float], [datetime], ...): its class name, [bool(x)] and
    [str(x)]. *)
Inductive value : Type :=
| VNone
| VBool (b : bool)
| VInt (z : Z)
| VStr (s : string)
| VObj (cls : string) (truth : bool) (text : string)
| VList (items : list value)
| VDict (items : list (value * value)).

(** [bool(v)], the test behind [x if v else y] and [if not v]. *)
Definition truthy (v : value) : bool :=
  match v with
  | VNone => false
  | VBool b => b
  | VInt z => negb (z =? 0)%Z
  | VStr s => negb (String.eqb s EmptyString)
  | VObj _ t _ => t
  | VList l => match l with [] => false | _ => true end
  | VDict d => match d with [] => false | _ => true end
  end.

Definition type_name (v : value) : string :=
  match v with
  | VNone => "NoneType"
  | VBool _ => "bool"
  | VInt _ => "int"
  | VStr _ => "str"
  | VObj c _ _ => c
  | VList _ => "list"
  | VDict _ => "dict"
  end.

(** An exception: its class and [str(e)]. *)
Inductive exn : Type := Exn (cls : string) (msg : string).

Definition exn_str (e : exn) : string := let 'Exn _ m := e in m.

Inductive result (A : Type) : Type :=
| Ok (a : A)
| Raise (e : exn).
Arguments Ok {A} a.
Arguments Raise {A} e.

Definition rbind {A B} (r : result A) (k : A -> result B) : result B :=
  match r with
  | Ok a => k a
  | Raise e => Raise e
  end.

(** [t[i]] on a row tuple. *)
Definition subscript (t : list value) (i : nat) : result value :=
  match nth_error t i with
  | Some v => Ok v
  | None => Raise (Exn "IndexError" "tuple index out of range")
  end.

(** [r[i]] on what [fetchone()] returned: a row tuple or [None]. *)
Definition subscript_opt (r : option (list value)) (i : nat) : result value :=
  match r with
  | Some t => subscript t i
  | None => Raise (Exn "TypeError" "'NoneType' object is not subscriptable")
  end.

(** [isinstance(v, (dict, list))]. *)
Definition is_structured (v : value) : bool :=
  match v with
  | VList _ | VDict _ => true
  | _ => false
  end.

(** [v.lower()] on a cell: defined on [str]. *)
Definition lower_of (v : value) : result string :=
  match v with
  | VStr s => Ok (lower s)
  | _ => Raise (Exn "AttributeError"
                  ("'" ++ type_name v ++ "' object has no attribute 'lower'"))
  end.

(** A [dict] with [str] keys, in insertion order (the rows of a
    [DictCursor]). *)
Definition dict : Type := list (string * value).

Fixpoint dict_set (d : dict) (k : string) (v : value) : dict :=
  match d with
  | [] => [(k, v)]
  | (k', v') :: t =>
    if String.eqb k' k then (k', v) :: t else (k', v') :: dict_set t k v
  end.

(** [dict(zip(fields, row))]. *)
Definition dict_zip (fields : list string) (row : list value) : dict :=
  fold_left (fun d kv => dict_set d (fst kv) (snd kv)) (combine fields row) [].

Definition keys (d : dict) : list string := map fst d.

Fixpoint dict_get (d : dict) (k : string) : option value :=
  match d with
  | [] => None
  | (k', v) :: t => if String.eqb k' k then Some v else dict_get t k
  end.

End Py.

Import Py.

Declare Scope result_scope.
Delimit Scope result_scope with result.
Notation "x <~ r ;; k" := (rbind r (fun x => k))
  (at level 61, r at next level, right associativity) : result_scope.

(* ================================================================== *)
(** ** The database behind the pool, and the effect monad *)

(** What the server answers to one statement: a result set (the field names
    of its description and its rows, as tuples) or an error, which the
    driver raises from [cursor.execute]. *)
Inductive reply : Type :=
| Result (fields : list string) (rows : list (list value))
| Failure (e : exn).

(** What a handler does to the pool and the database, in order:
    [pool.acquire()] handing out a connection or raising, a statement with
    its answer, the connection going back to the pool. *)
Inductive event : Type :=
| EvAcquire
| EvRefused (e : exn)
| EvExecute (query : string) (args : list string) (r : reply)
| EvRelease.

(** The statements a trace sent to the server, in order. *)
Fixpoint statements (t : list event) : list string :=
  match t with
  | [] => []
  | EvExecute q _ _ :: r => q :: statements r
  | _ :: r => statements r
  end.

(** [fetchone()] and [fetchall()] on the result set of the last
    [execute]; every [execute] of the handlers is followed by exactly one
    of them. *)
Definition fetchone (rows : list (list value)) : option (list value) :=
  hd_error rows.

Definition fetchall (rows : list (list value)) : list (list value) := rows.

(** The loops [for x in xs: result += f"..."]. *)
Fixpoint append_rows {A} (f : A -> result string) (xs : list A)
         (acc : string) : result string :=
  match xs with
  | [] => Ok acc
  | x :: t => (s <~ f x ;; append_rows f t (acc ++ s))%result
  end.

(** One line of an indented triple-quoted f-string. *)
Definition line (indent : nat) (s : string) : string :=
  spaces indent ++ s ++ NL.

(** The existence check of [table_statistics]; the name goes to the
    server as the argument of the pattern. *)
Definition exists_stmt : string := "SHOW TABLES LIKE %s".

(* ================================================================== *)
(** ** A scripted server

    A stand-in for the server, used to run the handlers on concrete inputs:
    a catalog of table names, against which the existence check is answered
    with the pattern semantics of [LIKE], and a script of answers for the
    other statements.  Any statement outside the script is answered with
    the error [unknown]. *)

Module Scripted.

(** [like p s]: [s] matches the pattern [p]; [%] stands for any run of
    characters, [_] for any one character, a backslash takes the next
    character literally.  Matching is on bytes. *)
Fixpoint like (p : string) : string -> bool :=
  match p with
  | EmptyString => fun s => String.eqb s EmptyString
  | String c p' =>
    if Ascii.eqb c "%" then
      fix any (s : string) : bool :=
        like p' s || match s with
                     | EmptyString => false
                     | String _ s' => any s'
                     end
    else if Ascii.eqb c "_" then
      fun s => match s with
               | EmptyString => false
               | String _ s' => like p' s'
               end
    else
      match p' with
      | String e p'' =>
        if Ascii.eqb c "\" then
          fun s => match s with
                   | EmptyString => false
                   | String d s' => Ascii.eqb e d && like p'' s'
                   end
        else
          fun s => match s with
                   | EmptyString => false
                   | String d s' => Ascii.eqb c d && like p' s'
                   end
      | EmptyString =>
        fun s => match s with
                 | EmptyString => false
                 | String d s' => Ascii.eqb c d && like p' s'
                 end
      end
  end.

Record server : Type := {
  tables : list string;
  script : list (string * reply);
  unknown : exn;
  pool_error : option exn
}.

Fixpoint lookup (q : string) (l : list (string * reply)) : option reply :=
  match l with
  | [] => None
  | (q', r) :: t => if String.eqb q' q then Some r else lookup q t
  end.

Definition acquire (s : server) : option exn := pool_error s.

Definition answer (s : server) (q : string) (args : list string)
  : reply * server :=
  match String.eqb q exists_stmt, args with
  | true, [pattern] =>
    (Result ["Tables_in_db"]
       (map (fun t => [VStr t]) (filter (like pattern) (tables s))), s)
  | _, _ =>
    match lookup q (script s) with
    | Some r => (r, s)
    | None => (Failure (unknown s), s)
    end
  end.

End Scripted.

Example like_ex :
  map (fun p => Scripted.like p "users")
      ["users"; "user_"; "u%"; "%"; "user"; "users_"; "user\_"; "_sers"; "%s%r%"]
  = [true; true; true; true; false; false; false; true; true].
Proof. reflexivity. Qed.

(* ================================================================== *)
(** ** The lifetime of the pool: [app_lifespan]

    The generator behind [@asynccontextmanager]: what it prints and does to
    the pool, given how [create_pool] ends and how the server run under
    the [yield] ends. *)

Module Lifespan.



















End Lifespan.

Section Gateway.

(** The pool and the server behind it: a state, whether [pool.acquire()]
    hands out a connection ([None]) or raises, and the answer to a statement
    with its arguments.  The state is threaded, so the catalog and the data
    may differ from one statement to the next. *)
Variable DB : Type.
Variable db_acquire : DB -> option exn.
Variable db_execute : DB -> string -> list string -> reply * DB.

(** [DB_CONFIG['db']], that is [os.getenv("DB_NAME")]: a [str] or [None]. *)
Variable DB_NAME : option string.

(** Library functions that are not modelled: [repr()] (behind [str()] of a
    container and of a [KeyError]), [json.dumps(x)] and
    [round(float(x), 2)], which is binary floating point. *)
Variable py_repr : value -> string.
Variable json_dumps : value -> result string.
Variable round2 : value -> result value.

(** [str(v)], also what [f"{v}"] inserts. *)
Definition py_str (v : value) : string :=
  match v with
  | VNone => "None"
  | VBool true => "True"
  | VBool false => "False"
  | VInt z => dec_of_Z z
  | VStr s => s
  | VObj _ _ t => t
  | VList _ | VDict _ => py_repr v
  end.

Definition py_str_opt (o : option string) : string :=
  match o with
  | Some s => s
  | None => "None"
  end.

(** [d[k]] on a [DictCursor] row. *)
Definition getitem (d : dict) (k : string) : result value :=
  match dict_get d k with
  | Some v => Ok v
  | None => Raise (Exn "KeyError" (py_repr (VStr k)))
  end.

(** A computation over the database: the result or the exception raised,
    the database afterwards, and the events in order. *)
Definition M (A : Type) : Type := DB -> result A * DB * list event.

(** The three parts of a run. *)
Definition outcome {A} (x : result A * DB * list event) : result A :=
  fst (fst x).
Definition final {A} (x : result A * DB * list event) : DB := snd (fst x).
Definition trace {A} (x : result A * DB * list event) : list event := snd x.

Definition ret {A} (a : A) : M A := fun db => (Ok a, db, []).

Definition lift {A} (r : result A) : M A := fun db => (r, db, []).

Definition bind {A B} (m : M A) (k : A -> M B) : M B :=
  fun db =>
    match m db with
    | (Ok a, db1, t1) => let '(r, db2, t2) := k a db1 in (r, db2, (t1 ++ t2)%list)
    | (Raise e, db1, t1) => (Raise e, db1, t1)
    end.

Local Notation "x <- m ;; k" := (bind m (fun x => k))
  (at level 61, m at next level, right associativity).

(** [try: m  except Exception as e: h e]. *)
Definition try_except {A} (m : M A) (h : exn -> M A) : M A :=
  fun db =>
    match m db with
    | (Ok a, db1, t1) => (Ok a, db1, t1)
    | (Raise e, db1, t1) => let '(r, db2, t2) := h e db1 in (r, db2, (t1 ++ t2)%list)
    end.

(** [async with pool.acquire() as conn: async with conn.cursor() as cursor:
    body].  The connection goes back to the pool on every way out of the
    body.  Opening and closing the cursor sends nothing. *)
Definition with_connection {A} (body : M A) : M A :=
  fun db =>
    match db_acquire db with
    | Some e => (Raise e, db, [EvRefused e])
    | None =>
      let '(r, db1, t) := body db in (r, db1, (EvAcquire :: t ++ [EvRelease])%list)
    end.

(** [await cursor.execute(query, args)]: the result set, or the server's
    error raised. *)
Definition cursor_execute (query : string) (args : list string)
  : M (list string * list (list value)) :=
  fun db =>
    let '(r, db1) := db_execute db query args in
    match r with
    | Result fields rows => (Ok (fields, rows), db1, [EvExecute query args r])
    | Failure e => (Raise e, db1, [EvExecute query args r])
    end.

(** The same through a plain cursor, whose rows are tuples. *)
Definition execute (query : string) (args : list string)
  : M (list (list value)) :=
  fr <- cursor_execute query args ;; ret (snd fr).

(* ------------------------------------------------------------------ *)
(** *** [get_table_schema] *)

Definition describe_stmt (table_name : string) : string :=
  "DESCRIBE `" ++ table_name ++ "`".

Definition show_create_stmt (table_name : string) : string :=
  "SHOW CREATE TABLE `" ++ table_name ++ "`".

Definition schema_row (col : list value) : result string :=
  (c0 <~ subscript col 0 ;;
   c1 <~ subscript col 1 ;;
   c2 <~ subscript col 2 ;;
   c3 <~ subscript col 3 ;;
   c4 <~ subscript col 4 ;;
   c5 <~ subscript col 5 ;;
   Ok ("| " ++ py_str c0 ++ " | " ++ py_str c1 ++ " | " ++ py_str c2
       ++ " | " ++ py_str c3 ++ " | "
       ++ (if truthy c4 then py_str c4 else "NULL")
       ++ " | " ++ py_str c5 ++ " |" ++ NL))%result.

Definition get_table_schema (table_name : string) : M string :=
  with_connection (
    columns <- execute (describe_stmt table_name) [] ;;
    created <- execute (show_create_stmt table_name) [] ;;
    let create_table := fetchone created in
    let result := "# 表结构: " ++ table_name ++ NL ++ NL in
    let result := result ++ "## 列信息" ++ NL ++ NL in
    let result :=
      result ++ "| 字段名 | 类型 | 可为空 | 键 | 默认值 | 额外信息 |" ++ NL in
    let result :=
      result ++ "| ------ | ---- | ------ | -- | ------ | -------- |" ++ NL in
    result <- lift (append_rows schema_row (fetchall columns) result) ;;
    ddl <- lift (subscript_opt create_table 1) ;;
    ret (result ++ NL ++ "## 创建语句" ++ NL ++ NL ++ "```sql" ++ NL
         ++ py_str ddl ++ NL ++ "```" ++ NL)).

(* ------------------------------------------------------------------ *)
(** *** [get_relationships] *)

Definition fk_stmt (table_name : string) : string :=
  NL
  ++ line 20 "SELECT "
  ++ line 24 "TABLE_NAME as table_name,"
  ++ line 24 "COLUMN_NAME as column_name,"
  ++ line 24 "CONSTRAINT_NAME as constraint_name,"
  ++ line 24 "REFERENCED_TABLE_NAME as referenced_table_name,"
  ++ line 24 "REFERENCED_COLUMN_NAME as referenced_column_name"
  ++ line 20 "FROM"
  ++ line 24 "INFORMATION_SCHEMA.KEY_COLUMN_USAGE"
  ++ line 20 "WHERE"
  ++ line 24 ("REFERENCED_TABLE_SCHEMA = '" ++ py_str_opt DB_NAME ++ "' AND")
  ++ line 24 ("TABLE_NAME = '" ++ table_name ++ "'")
  ++ spaces 16.

Definition relation_row (rel : list value) : result string :=
  (r1 <~ subscript rel 1 ;;
   r2 <~ subscript rel 2 ;;
   r3 <~ subscript rel 3 ;;
   r4 <~ subscript rel 4 ;;
   Ok ("| " ++ py_str r1 ++ " | " ++ py_str r2 ++ " | " ++ py_str r3
       ++ " | " ++ py_str r4 ++ " |" ++ NL))%result.

(** The section of one table that has relations. *)
Definition relation_head (table_name : string) : string :=
  "## 表 `" ++ table_name ++ "` 的外键关系" ++ NL ++ NL
  ++ "| 列名 | 约束名 | 引用表 | 引用列 |" ++ NL
  ++ "| ---- | ------ | ------ | ------ |" ++ NL.

Definition RELATIONS_TITLE : string := "# 数据库关系" ++ NL ++ NL.
Definition NO_RELATIONS : string := "未找到表之间的关系。" ++ NL.

(** The body of [for table in tables], with the two variables it updates. *)
Fixpoint relations_loop (tables : list (list value)) (result : string)
         (has_relations : bool) : M (string * bool) :=
  match tables with
  | [] => ret (result, has_relations)
  | table :: rest =>
    name <- lift (subscript table 0) ;;
    let table_name := py_str name in
    relations <- execute (fk_stmt table_name) [] ;;
    match fetchall relations with
    | [] => relations_loop rest result has_relations
    | _ =>
      result <- lift (append_rows relation_row (fetchall relations)
                        (result ++ relation_head table_name)) ;;
      relations_loop rest (result ++ NL) true
    end
  end.

Definition get_relationships : M string :=
  with_connection (
    tables <- execute "SHOW TABLES" [] ;;
    out <- relations_loop (fetchall tables) RELATIONS_TITLE false ;;
    let '(result, has_relations) := out in
    ret (if has_relations then result else result ++ NO_RELATIONS)).

(* ------------------------------------------------------------------ *)
(** *** [query_data] *)

Definition REJECTED : string := "错误: 只支持SELECT查询以保证数据库安全".
Definition NO_ROWS : string := "查询执行成功，但没有返回数据。".

(** The read-only test on the trimmed text. *)
Definition is_select (sql : string) : bool :=
  startswith (lower sql) "select".

(** The statement after the [LIMIT] step ([sql] is the trimmed text). *)
Definition add_limit (sql : string) (limit : option Z) : string :=
  match limit with
  | Some n =>
    if negb (contains "limit" (lower sql))
    then sql ++ " LIMIT " ++ dec_of_Z n
    else sql
  | None => sql
  end.

(** One cell of a data row. *)
Definition format_cell (cell : value) : result string :=
  (cell <~ match cell with
           | VNone => Ok (VStr "NULL")
           | VList _ | VDict _ => (s <~ json_dumps cell ;; Ok (VStr s))
           | _ => Ok cell
           end ;;
   Ok (escape_pipe (py_str cell)))%result.

(** [formatted_row] of one row. *)
Fixpoint format_cells (row : dict) (columns : list string)
  : result (list string) :=
  match columns with
  | [] => Ok []
  | col :: rest =>
    (cell <~ getitem row col ;;
     text <~ format_cell cell ;;
     more <~ format_cells row rest ;;
     Ok (text :: more))%result
  end.

Definition format_row (columns : list string) (row : dict) : result string :=
  (cells <~ format_cells row columns ;;
   Ok ("| " ++ join " | " cells ++ " |" ++ NL))%result.

(** What is returned for the fetched rows.  [fetchall()] of a
    [DictCursor] is a list, so the branch for a non-list result is not
    reached and is left out. *)
Definition render_results (results : list dict) : result string :=
  match results with
  | [] => Ok NO_ROWS
  | first :: _ =>
    let columns := keys first in
    let table := "| " ++ join " | " columns ++ " |" ++ NL in
    let table :=
      table ++ "| " ++ join " | " (map (fun _ => "---") columns) ++ " |"
      ++ NL in
    (table <~ append_rows (format_row columns) results table ;;
     Ok ("查询结果 (" ++ dec_of_nat (length results) ++ " 行):" ++ NL ++ NL
         ++ table))%result
  end.

Definition query_error (e : exn) : string := "查询执行错误: " ++ exn_str e.

(** The block under [try] once the statement is fixed. *)
Definition query_body (sql : string) : M string :=
  with_connection (
    fr <- cursor_execute sql [] ;;
    let '(fields, rows) := fr in
    let results := map (dict_zip fields) (fetchall rows) in
    lift (render_results results)).

(** [limit] is [Optional[int]]: [None] or an integer.  The parameter [ctx]
    only gives access to the pool, which is the state the monad threads. *)
Definition query_data (sql : string) (limit : option Z) : M string :=
  let sql := strip sql in
  if negb (is_select sql) then ret REJECTED else
  let sql := add_limit sql limit in
  try_except (query_body sql) (fun e => ret (query_error e)).

(** The declared default, [limit: Optional[int] = 100]. *)
Definition query_data_default (sql : string) : M string :=
  query_data sql (Some 100%Z).

(* ------------------------------------------------------------------ *)
(** *** [table_statistics] *)

Inductive category : Type := Numeric | Text | Other.

Definition has_token (tokens : list string) (lowered : string) : bool :=
  existsb (fun tok => contains tok lowered) tokens.

Definition NUMERIC_TOKENS : list string := ["int"; "decimal"; "float"; "double"].
Definition TEXT_TOKENS : list string := ["char"; "text"; "varchar"].

(** The [if] / [elif] / [else] on the lowered type text. *)
Definition classify_lowered (lowered : string) : category :=
  if has_token NUMERIC_TOKENS lowered then Numeric
  else if has_token TEXT_TOKENS lowered then Text
  else Other.

Definition classify (col_type : string) : category :=
  classify_lowered (lower col_type).

(** The dictionaries appended to [stats]; [NumStat] is the one with the key
    ["avg"], [TextStat] the one with the key ["avg_length"]. *)
Inductive stat : Type :=
| NumStat (column type min max avg std : value)
| TextStat (column type unique_values avg_length : value)
| OtherStat (column type unique_values : value).

Definition has_avg (s : stat) : bool :=
  match s with NumStat _ _ _ _ _ _ => true | _ => false end.

Definition has_avg_length (s : stat) : bool :=
  match s with TextStat _ _ _ _ => true | _ => false end.

Definition count_stmt (table_name : string) : string :=
  "SELECT COUNT(*) as count FROM `" ++ table_name ++ "`".

Definition numeric_stmt (col_name table_name : string) : string :=
  NL
  ++ line 28 "SELECT "
  ++ line 32 ("MIN(`" ++ col_name ++ "`) as min_val,")
  ++ line 32 ("MAX(`" ++ col_name ++ "`) as max_val,")
  ++ line 32 ("AVG(`" ++ col_name ++ "`) as avg_val,")
  ++ line 32 ("STD(`" ++ col_name ++ "`) as std_val")
  ++ line 28 ("FROM `" ++ table_name ++ "`")
  ++ spaces 24.

Definition text_stmt (col_name table_name : string) : string :=
  NL
  ++ line 28 "SELECT "
  ++ line 32 ("COUNT(DISTINCT `" ++ col_name ++ "`) as unique_count,")
  ++ line 32 ("AVG(LENGTH(`" ++ col_name ++ "`)) as avg_length")
  ++ line 28 ("FROM `" ++ table_name ++ "`")
  ++ spaces 24.

Definition other_stmt (col_name table_name : string) : string :=
  NL
  ++ line 28 ("SELECT COUNT(DISTINCT `" ++ col_name ++ "`) as unique_count")
  ++ line 28 ("FROM `" ++ table_name ++ "`")
  ++ spaces 24.

(** [round(float(x), 2) if x else None]. *)
Definition rounded_or_none (x : value) : result value :=
  if truthy x then round2 x else Ok VNone.

Definition numeric_entry (col_name col_type : value)
           (num_stats : option (list value)) : result stat :=
  (mn <~ subscript_opt num_stats 0 ;;
   mx <~ subscript_opt num_stats 1 ;;
   a <~ subscript_opt num_stats 2 ;;
   avg <~ rounded_or_none a ;;
   s <~ subscript_opt num_stats 3 ;;
   std <~ rounded_or_none s ;;
   Ok (NumStat col_name col_type mn mx avg std))%result.

Definition text_entry (col_name col_type : value)
           (text_stats : option (list value)) : result stat :=
  (u <~ subscript_opt text_stats 0 ;;
   l <~ subscript_opt text_stats 1 ;;
   avg_length <~ rounded_or_none l ;;
   Ok (TextStat col_name col_type u avg_length))%result.

Definition other_entry (col_name col_type : value)
           (other_stats : option (list value)) : result stat :=
  (u <~ subscript_opt other_stats 0 ;;
   Ok (OtherStat col_name col_type u))%result.

(** The body of [for col in columns]: one statement and one entry. *)
Definition column_stat (table_name : string) (col : list value) : M stat :=
  col_name <- lift (subscript col 0) ;;
  col_type <- lift (subscript col 1) ;;
  lowered <- lift (lower_of col_type) ;;
  match classify_lowered lowered with
  | Numeric =>
    rows <- execute (numeric_stmt (py_str col_name) table_name) [] ;;
    lift (numeric_entry col_name col_type (fetchone rows))
  | Text =>
    rows <- execute (text_stmt (py_str col_name) table_name) [] ;;
    lift (text_entry col_name col_type (fetchone rows))
  | Other =>
    rows <- execute (other_stmt (py_str col_name) table_name) [] ;;
    lift (other_entry col_name col_type (fetchone rows))
  end.

Fixpoint stats_loop (table_name : string) (columns : list (list value))
  : M (list stat) :=
  match columns with
  | [] => ret []
  | col :: rest =>
    s <- column_stat table_name col ;;
    more <- stats_loop table_name rest ;;
    ret (s :: more)
  end.

Definition stat_line (s : stat) : string :=
  match s with
  | NumStat c t mn mx avg std =>
    "| " ++ py_str c ++ " | " ++ py_str t ++ " | " ++ py_str mn ++ " | "
    ++ py_str mx ++ " | " ++ py_str avg ++ " | " ++ py_str std ++ " |" ++ NL
  | TextStat c t u l =>
    "| " ++ py_str c ++ " | " ++ py_str t ++ " | " ++ py_str u ++ " | "
    ++ py_str l ++ " |" ++ NL
  | OtherStat c t u =>
    "| " ++ py_str c ++ " | " ++ py_str t ++ " | " ++ py_str u ++ " |" ++ NL
  end.

Definition stat_lines (l : list stat) : string :=
  String.concat "" (map stat_line l).

Definition numeric_section (stats : list stat) : string :=
  match filter has_avg stats with
  | [] => ""
  | num_cols =>
    "## 数值列统计" ++ NL ++ NL
    ++ "| 列名 | 类型 | 最小值 | 最大值 | 平均值 | 标准差 |" ++ NL
    ++ "| ---- | ---- | ------ | ------ | ------ | ------ |" ++ NL
    ++ stat_lines num_cols ++ NL
  end.

Definition text_section (stats : list stat) : string :=
  match filter has_avg_length stats with
  | [] => ""
  | text_cols =>
    "## 文本列统计" ++ NL ++ NL
    ++ "| 列名 | 类型 | 唯一值数量 | 平均长度 |" ++ NL
    ++ "| ---- | ---- | ---------- | -------- |" ++ NL
    ++ stat_lines text_cols ++ NL
  end.

Definition other_section (stats : list stat) : string :=
  match filter (fun s => negb (has_avg s) && negb (has_avg_length s)) stats with
  | [] => ""
  | other_cols =>
    "## 其他列统计" ++ NL ++ NL
    ++ "| 列名 | 类型 | 唯一值数量 |" ++ NL
    ++ "| ---- | ---- | ---------- |" ++ NL
    ++ stat_lines other_cols
  end.

Definition statistics_report (table_name : string) (count : value)
           (stats : list stat) : string :=
  "# 表 '" ++ table_name ++ "' 统计信息" ++ NL ++ NL
  ++ "总行数: " ++ py_str count ++ NL ++ NL
  ++ numeric_section stats ++ text_section stats ++ other_section stats.

Definition not_found (table_name : string) : string :=
  "错误: 表 '" ++ table_name ++ "' 不存在".

Definition statistics_error (e : exn) : string :=
  "获取统计信息错误: " ++ exn_str e.

(** The block under [try]. *)
Definition statistics_body (table_name : string) : M string :=
  with_connection (
    found <- execute exists_stmt [table_name] ;;
    match fetchone found with
    | None | Some [] => ret (not_found table_name)
    | Some _ =>
      counted <- execute (count_stmt table_name) [] ;;
      let count := fetchone counted in
      described <- execute (describe_stmt table_name) [] ;;
      let columns := fetchall described in
      stats <- stats_loop table_name columns ;;
      c <- lift (subscript_opt count 0) ;;
      ret (statistics_report table_name c stats)
    end).

Definition table_statistics (table_name : string) : M string :=
  try_except (statistics_body table_name)
             (fun e => ret (statistics_error e)).

(* ------------------------------------------------------------------ *)
(** *** [get_all_tables] and [list_schemas] *)

(** [[f(x) for x in xs]], stopping at the first exception. *)
Fixpoint map_result {A B} (f : A -> result B) (xs : list A)
  : result (list B) :=
  match xs with
  | [] => Ok []
  | x :: t => (y <~ f x ;; more <~ map_result f t ;; Ok (y :: more))%result
  end.

(** [f"- {table[0]}"]. *)
Definition table_item (table : list value) : result string :=
  (name <~ subscript table 0 ;; Ok ("- " ++ py_str name))%result.

Definition get_all_tables : M string :=
  with_connection (
    tables <- execute "SHOW TABLES" [] ;;
    items <- lift (map_result table_item (fetchall tables)) ;;
    ret (join NL items)).

(** One line of [list_schemas] for a table; [table[0]] is read twice. *)
Definition schema_item (table : list value) : result string :=
  (uri <~ subscript table 0 ;;
   name <~ subscript table 0 ;;
   Ok ("- `schema://table/" ++ py_str uri ++ "` - " ++ py_str name
       ++ "表结构" ++ NL))%result.

Definition SCHEMAS_HEAD : string :=
  "# 可用的数据库资源" ++ NL ++ NL ++ "## 表列表" ++ NL ++ NL.

Definition SCHEMAS_TAIL : string :=
  NL ++ "## 其他资源" ++ NL ++ NL
  ++ "- `schema://tables` - 所有表的列表" ++ NL
  ++ "- `schema://relationships` - 表之间的关系" ++ NL.

Definition list_schemas : M string :=
  with_connection (
    tables <- execute "SHOW TABLES" [] ;;
    result <- lift (append_rows schema_item (fetchall tables) SCHEMAS_HEAD) ;;
    ret (result ++ SCHEMAS_TAIL)).

(* ------------------------------------------------------------------ *)
(** *** Vocabulary of the properties *)

(** A computation stops at the first statement the server rejects, and
    raises the server's error. *)
Definition fail_fast {A} (m : M A) : Prop :=
  forall db q args e,
    In (EvExecute q args (Failure e)) (trace (m db)) ->
    outcome (m db) = Raise e.

(** The statement [column_stat] sends for a column whose second field is the
    type text [t]. *)
Definition stat_stmt (c : category) (col_name table_name : string) : string :=
  match c with
  | Numeric => numeric_stmt col_name table_name
  | Text => text_stmt col_name table_name
  | Other => other_stmt col_name table_name
  end.

(** The statements of [table_statistics] other than the existence check:
    each names the table by the text the caller gave, between backquotes. *)
Definition about_table (table_name q : string) : Prop :=
  q = exists_stmt
  \/ q = count_stmt table_name
  \/ q = describe_stmt table_name
  \/ exists c col_name, q = stat_stmt c col_name table_name.

(** Every statement a computation sends satisfies [P]. *)
Definition sends {A} (P : string -> Prop) (m : M A) : Prop :=
  forall db, Forall P (statements (trace (m db))).







(** The line of [get_table_schema] for a [DESCRIBE] row with its six
    fields. *)
Definition schema_line (col : list value) : string :=
  "| " ++ py_str (nth 0 col VNone) ++ " | " ++ py_str (nth 1 col VNone)
  ++ " | " ++ py_str (nth 2 col VNone) ++ " | " ++ py_str (nth 3 col VNone)
  ++ " | "
  ++ (if truthy (nth 4 col VNone) then py_str (nth 4 col VNone) else "NULL")
  ++ " | " ++ py_str (nth 5 col VNone) ++ " |" ++ NL.

(** A trace that keeps the pool's discipline: nothing at all, a refused
    acquisition, or one acquisition, then statements only, then the
    release. *)
Definition is_statement (ev : event) : Prop :=
  exists q args r, ev = EvExecute q args r.

Definition bracketed (t : list event) : Prop :=
  t = []
  \/ (exists e, t = [EvRefused e])
  \/ exists inner, t = (EvAcquire :: inner ++ [EvRelease])%list
                   /\ Forall is_statement inner.

(** A computation whose events are statements only. *)
Definition statements_only {A} (m : M A) : Prop :=
  forall db, Forall is_statement (trace (m db)).

(** The fields of an entry of [stats]. *)
Definition stat_column (s : stat) : value :=
  match s with
  | NumStat c _ _ _ _ _ | TextStat c _ _ _ | OtherStat c _ _ => c
  end.

Definition stat_type (s : stat) : value :=
  match s with
  | NumStat _ t _ _ _ _ | TextStat _ t _ _ | OtherStat _ t _ => t
  end.

Definition stat_category (s : stat) : category :=
  match s with
  | NumStat _ _ _ _ _ _ => Numeric
  | TextStat _ _ _ _ => Text
  | OtherStat _ _ _ => Other
  end.

(** The category of a [DESCRIBE] row, by its second field. *)
Definition column_category (col : list value) : category :=
  match nth 1 col VNone with
  | VStr t => classify t
  | _ => Other
  end.






(** The answer of [query_data] for [n] rows: the title, then the table. *)
Definition query_table (n : nat) (table : string) : string :=
  "查询结果 (" ++ dec_of_nat n ++ " 行):" ++ NL ++ NL ++ table.

(* ================================================================== *)
(** ** Properties *)

(** *** Strings *)

Lemma lower_app (a b : string) : lower (a ++ b) = lower a ++ lower b.
Proof.
  induction a as [|c a IH]; simpl; [reflexivity | now rewrite IH].
Qed.

(** A match of [limit] cannot start inside a text without one and run over
    a following space. *)
Lemma limit_not_across_space (a r : string) :
  a <> EmptyString ->
  is_prefix "limit" a = false ->
  is_prefix "limit" (a ++ String " " r) = false.
Proof.
  intros Hne H.
  destruct a as [|c1 [|c2 [|c3 [|c4 [|c5 t]]]]]; [congruence | | | | | ];
    cbn in *;
    repeat match goal with
           | |- context [Ascii.eqb ?x ?y] => destruct (Ascii.eqb x y)
           end;
    cbn in *; congruence.
Qed.

Lemma occurrences_before_space (a r : string) :
  contains "limit" a = false ->
  occurrences "limit" (a ++ String " " r) = occurrences "limit" (String " " r).
Proof.
  induction a as [|c a IH]; intros H; [reflexivity|].
  cbn [contains] in H. apply orb_false_elim in H as [Hp Hc].
  change (String c a ++ String " " r) with (String c (a ++ String " " r)).
  cbn [occurrences].
  change (String c (a ++ String " " r)) with (String c a ++ String " " r).
  rewrite limit_not_across_space by (assumption || discriminate).
  rewrite IH by assumption. reflexivity.
Qed.

Lemma digit_dec_char (n : N) : dec_char (digit (n mod 10)) = true.
Proof.
  assert (H : (n mod 10 < 10)%N) by (apply N.mod_lt; discriminate).
  generalize dependent (n mod 10)%N. intros m H.
  unfold dec_char, digit, nat_of_ascii.
  rewrite N_ascii_embedding by lia.
  apply orb_true_iff; right. apply andb_true_iff; split; apply Nat.leb_le; lia.
Qed.

Lemma dec_digits_chars (fuel : nat) :
  forall n acc, all_chars dec_char acc = true ->
                all_chars dec_char (dec_digits fuel n acc) = true.
Proof.
  induction fuel as [|f IH]; intros n acc H; simpl; [assumption|].
  assert (H' : all_chars dec_char (String (digit (n mod 10)) acc) = true)
    by (simpl; now rewrite digit_dec_char).
  destruct (n / 10 =? 0)%N; [assumption | now apply IH].
Qed.

Lemma dec_of_Z_chars (z : Z) : all_chars dec_char (dec_of_Z z) = true.
Proof.
  destruct z; [reflexivity | apply dec_digits_chars; reflexivity |].
  simpl. apply dec_digits_chars. reflexivity.
Qed.

Lemma dec_char_lower (c : ascii) :
  dec_char c = true -> lower_char c = c /\ c <> "l"%char.
Proof.
  destruct c as [[] [] [] [] [] [] [] []]; cbv; intros H;
    try discriminate H; split; (reflexivity || discriminate).
Qed.

Lemma lower_dec (s : string) : all_chars dec_char s = true -> lower s = s.
Proof.
  induction s as [|c s IH]; simpl; intros H; [reflexivity|].
  apply andb_true_iff in H as [Hc Hs].
  destruct (dec_char_lower c Hc) as [-> _]. now rewrite IH.
Qed.

Lemma no_limit_in_dec (s : string) :
  all_chars dec_char s = true -> occurrences "limit" s = 0.
Proof.
  induction s as [|c s IH]; cbn [all_chars occurrences is_prefix]; intros H;
    [reflexivity|].
  apply andb_true_iff in H as [Hc Hs].
  destruct (dec_char_lower c Hc) as [_ Hl].
  rewrite (IH Hs).
  destruct (Ascii.eqb_spec "l" c) as [E|E]; [now subst c | reflexivity].
Qed.

(** After [" LIMIT n"] is appended to a text without [limit], the lowered
    text has exactly one. *)
Lemma one_limit_after_append (sql : string) (n : Z) :
  contains "limit" (lower sql) = false ->
  occurrences "limit" (lower (sql ++ " LIMIT " ++ dec_of_Z n)) = 1.
Proof.
  intros H.
  rewrite lower_app.
  change (lower (" LIMIT " ++ dec_of_Z n))
    with (String " " ("limit " ++ lower (dec_of_Z n))).
  rewrite occurrences_before_space by assumption.
  rewrite lower_dec by apply dec_of_Z_chars.
  cbn. rewrite no_limit_in_dec by apply dec_of_Z_chars. reflexivity.
Qed.

(** *** [query_data]: the guard and the [LIMIT] step *)

(** Once the guard is passed and a connection is handed out, exactly one
    statement goes to the server: the trimmed text after the [LIMIT] step. *)
Lemma query_data_statements (sql : string) (limit : option Z) (db : DB) :
  is_select (strip sql) = true ->
  db_acquire db = None ->
  statements (trace (query_data sql limit db)) = [add_limit (strip sql) limit].
Proof.
  intros Hsel Hacq.
  unfold query_data. rewrite Hsel. cbn [negb].
  unfold try_except, query_body, with_connection. rewrite Hacq.
  unfold bind, cursor_execute, lift, ret.
  destruct (db_execute db (add_limit (strip sql) limit) [])
    as [[fields rows|e] db1]; [|reflexivity].
  destruct (render_results _); reflexivity.
Qed.

Lemma query_data_rejected (sql : string) (limit : option Z) (db : DB) :
  is_select (strip sql) = false ->
  query_data sql limit db = (Ok REJECTED, db, []).
Proof.
  intros H. unfold query_data. rewrite H. reflexivity.
Qed.

(** C1. For every input whose trimmed text does not begin, in any letter
    case, with SELECT, [query_data] returns the rejection message and does
    nothing else: no connection is acquired from the pool, no statement is
    executed, and the database is left as it was. *)
Theorem query_data_rejects_non_select
        (sql : string) (limit : option Z) (db : DB) :
  is_select (strip sql) = false ->
  query_data sql limit db = (Ok REJECTED, db, []).
Proof. exact (query_data_rejected sql limit db). Qed.

(** C2. For a statement that passes the guard, with a connection handed
    out: when the lowered trimmed text has no [limit] and a bound [n] is
    given (100 by default), the one statement sent is the trimmed text with
    [" LIMIT n"] appended, and its lowered text has exactly one [limit];
    when the lowered text already has [limit] somewhere, or the bound is
    [None], the one statement sent is the trimmed text itself. *)
Theorem query_data_limit_clause (sql : string) (limit : option Z) (db : DB) :
  is_select (strip sql) = true ->
  db_acquire db = None ->
  let sent := statements (trace (query_data sql limit db)) in
  (forall n, limit = Some n ->
             contains "limit" (lower (strip sql)) = false ->
             sent = [strip sql ++ " LIMIT " ++ dec_of_Z n]
             /\ occurrences "limit"
                  (lower (strip sql ++ " LIMIT " ++ dec_of_Z n)) = 1)
  /\ (contains "limit" (lower (strip sql)) = false ->
      statements (trace (query_data_default sql db))
      = [strip sql ++ " LIMIT 100"])
  /\ (contains "limit" (lower (strip sql)) = true -> sent = [strip sql])
  /\ (limit = None -> sent = [strip sql]).
Proof.
  intros Hsel Hacq sent. subst sent.
  unfold query_data_default.
  rewrite !query_data_statements by assumption.
  repeat split.
  - subst limit. cbn [add_limit]. now rewrite H0.
  - now apply one_limit_after_append.
  - intros H. cbn [add_limit]. now rewrite H.
  - intros H. destruct limit as [n|]; cbn [add_limit]; [now rewrite H | reflexivity].
  - intros ->. reflexivity.
Qed.

(** *** [query_data]: the rendered table *)

Lemma escape_pipe_escaped (s : string) :
  forall prev, pipes_escaped_from prev (escape_pipe s) = true.
Proof.
  induction s as [|c s IH]; intros prev; [reflexivity|].
  cbn [escape_pipe]. destruct (Ascii.eqb c "|") eqn:E.
  - cbn [pipes_escaped_from]. rewrite IH. reflexivity.
  - cbn [pipes_escaped_from]. rewrite E, IH. reflexivity.
Qed.

Lemma append_nil_r (s : string) : s ++ "" = s.
Proof. induction s as [|c s IH]; cbn; congruence. Qed.

Lemma append_assoc (a b c : string) : (a ++ b) ++ c = a ++ (b ++ c).
Proof. induction a as [|x a IH]; cbn; congruence. Qed.

Lemma append_rows_lines {A} (f : A -> result string) (xs : list A)
      (lines : list string) :
  Forall2 (fun x l => f x = Ok l) xs lines ->
  forall acc, append_rows f xs acc = Ok (acc ++ String.concat "" lines).
Proof.
  induction 1 as [|x l xs lines Hx _ IH]; intros acc.
  - cbn. now rewrite append_nil_r.
  - cbn [append_rows rbind]. rewrite Hx. cbn [rbind]. rewrite IH.
    rewrite append_assoc. f_equal. f_equal.
    destruct lines; cbn; [now rewrite append_nil_r | reflexivity].
Qed.

Lemma format_cells_texts (row : dict) (columns cells : list string) :
  Forall2 (fun col text =>
             exists cell, dict_get row col = Some cell
                          /\ format_cell cell = Ok text) columns cells ->
  format_cells row columns = Ok cells.
Proof.
  induction 1 as [|col text columns cells (cell & Hget & Hfmt) _ IH];
    [reflexivity|].
  cbn [format_cells]. unfold getitem. rewrite Hget. cbn [rbind].
  rewrite Hfmt. cbn [rbind]. rewrite IH. reflexivity.
Qed.

(** What [query_data] does with the answer to its statement. *)
Lemma query_data_run (sql : string) (limit : option Z) (db db1 : DB)
      (fields : list string) (rows : list (list value)) :
  is_select (strip sql) = true ->
  db_acquire db = None ->
  db_execute db (add_limit (strip sql) limit) [] = (Result fields rows, db1) ->
  query_data sql limit db
  = (match render_results (map (dict_zip fields) rows) with
     | Ok text => Ok text
     | Raise e => Ok (query_error e)
     end,
     db1,
     [EvAcquire;
      EvExecute (add_limit (strip sql) limit) [] (Result fields rows);
      EvRelease]).
Proof.
  intros Hsel Hacq Hexec.
  unfold query_data. rewrite Hsel. cbn [negb].
  unfold try_except, query_body, with_connection. rewrite Hacq.
  unfold bind, cursor_execute, lift, ret, fetchall. rewrite Hexec.
  destruct (render_results _); reflexivity.
Qed.

(** C7. In the table [query_data] renders: a [None] cell is the text
    [NULL]; a [dict] or [list] cell is its [json.dumps] text; any other
    cell is its [str()]; in each case every [|] of the text is preceded by a
    backslash in the cell; a data line is the cells of the row, in column
    order, between [" | "]; the response is the title, the header, the
    separator and the data lines; and a statement answered with no row
    gives the fixed no-rows message, not a table. *)
Theorem result_rendering :
  format_cell VNone = Ok "NULL"
  /\ (forall v, is_structured v = true ->
                format_cell v
                = (s <~ json_dumps v ;; Ok (escape_pipe s))%result)
  /\ (forall v, v <> VNone -> is_structured v = false ->
                format_cell v = Ok (escape_pipe (py_str v)))
  /\ (forall s, pipes_escaped (escape_pipe s) = true)
  /\ (forall columns row cells,
         Forall2 (fun col text =>
                    exists cell, dict_get row col = Some cell
                                 /\ format_cell cell = Ok text)
                 columns cells ->
         format_row columns row = Ok ("| " ++ join " | " cells ++ " |" ++ NL))
  /\ (forall sql limit db db1 fields,
         is_select (strip sql) = true ->
         db_acquire db = None ->
         db_execute db (add_limit (strip sql) limit) []
         = (Result fields [], db1) ->
         outcome (query_data sql limit db) = Ok NO_ROWS)
  /\ (forall sql limit db db1 fields row rows lines,
         is_select (strip sql) = true ->
         db_acquire db = None ->
         db_execute db (add_limit (strip sql) limit) []
         = (Result fields (row :: rows), db1) ->
         let results := map (dict_zip fields) (row :: rows) in
         let columns := keys (dict_zip fields row) in
         Forall2 (fun r l => format_row columns r = Ok l) results lines ->
         outcome (query_data sql limit db)
         = Ok ("查询结果 (" ++ dec_of_nat (length results) ++ " 行):"
               ++ NL ++ NL
               ++ ("| " ++ join " | " columns ++ " |" ++ NL
                   ++ "| " ++ join " | " (map (fun _ => "---") columns)
                   ++ " |" ++ NL)
               ++ String.concat "" lines)).
Proof.
  repeat apply conj.
  - reflexivity.
  - intros v Hv. unfold format_cell.
    destruct v; try discriminate Hv; destruct (json_dumps _); reflexivity.
  - intros v Hn Hv. destruct v; try discriminate Hv; try reflexivity.
    congruence.
  - intros s. apply escape_pipe_escaped.
  - intros columns row cells H. unfold format_row.
    now rewrite (format_cells_texts _ _ _ H).
  - intros sql limit db db1 fields Hsel Hacq Hexec.
    now rewrite (query_data_run _ _ _ _ _ _ Hsel Hacq Hexec).
  - intros sql limit db db1 fields row rows lines Hsel Hacq Hexec results
           columns Hlines.
    rewrite (query_data_run _ _ _ _ _ _ Hsel Hacq Hexec).
    fold results. unfold outcome. cbn [fst].
    unfold render_results. subst results. cbn [map].
    fold columns.
    change (dict_zip fields row :: map (dict_zip fields) rows)
      with (map (dict_zip fields) (row :: rows)).
    rewrite (append_rows_lines _ _ _ Hlines). cbn [rbind].
    rewrite !append_assoc. reflexivity.
Qed.

(** *** The effect monad *)

Lemma Ok_inj {A} (a b : A) : Ok a = Ok b -> a = b.
Proof. congruence. Qed.

Lemma run_eta {A} (x : result A * DB * list event) :
  x = (outcome x, final x, trace x).
Proof. now destruct x as [[r d] t]. Qed.

Lemma bind_ok {A B} (m : M A) (k : A -> M B) (db db1 : DB) (a : A)
      (t1 : list event) :
  m db = (Ok a, db1, t1) ->
  bind m k db = (outcome (k a db1), final (k a db1), (t1 ++ trace (k a db1))%list).
Proof.
  intros H. unfold bind. rewrite H. now destruct (k a db1) as [[r d] t].
Qed.

Lemma bind_raise {A B} (m : M A) (k : A -> M B) (db db1 : DB) (e : exn)
      (t1 : list event) :
  m db = (Raise e, db1, t1) -> bind m k db = (Raise e, db1, t1).
Proof. intros H. unfold bind. now rewrite H. Qed.

Lemma bind_lift_ok {A B} (a : A) (k : A -> M B) (db : DB) :
  bind (lift (Ok a)) k db = k a db.
Proof. unfold bind, lift. now destruct (k a db) as [[r d] t]. Qed.

Lemma bind_lift_raise {A B} (e : exn) (k : A -> M B) (db : DB) :
  bind (lift (Raise e)) k db = (Raise e, db, []).
Proof. reflexivity. Qed.

Lemma bind_ret {A B} (a : A) (k : A -> M B) (db : DB) :
  bind (ret a) k db = k a db.
Proof. apply bind_lift_ok. Qed.

Lemma execute_result (q : string) (args : list string) (db db1 : DB)
      (fields : list string) (rows : list (list value)) :
  db_execute db q args = (Result fields rows, db1) ->
  execute q args db = (Ok rows, db1, [EvExecute q args (Result fields rows)]).
Proof.
  intros H. unfold execute, bind, cursor_execute, ret. rewrite H.
  reflexivity.
Qed.

Lemma execute_failure (q : string) (args : list string) (db db1 : DB)
      (e : exn) :
  db_execute db q args = (Failure e, db1) ->
  execute q args db = (Raise e, db1, [EvExecute q args (Failure e)]).
Proof.
  intros H. unfold execute, bind, cursor_execute, ret. now rewrite H.
Qed.

(** Runs the pure steps at the head of a computation. *)
Ltac pure_steps :=
  repeat (first [ rewrite bind_lift_ok
                | rewrite bind_lift_raise
                | rewrite bind_ret
                | progress cbn [subscript subscript_opt nth_error lower_of
                                fetchone fetchall hd_error] ]).

Ltac pure_steps_in H :=
  repeat (first [ rewrite bind_lift_ok in H
                | rewrite bind_lift_raise in H
                | rewrite bind_ret in H
                | progress cbn [subscript subscript_opt nth_error lower_of
                                fetchone fetchall hd_error] in H ]).

(** The two ways an [execute] followed by [k] can go. *)
Lemma bind_execute {B} (q : string) (args : list string)
      (k : list (list value) -> M B) (db : DB) :
  bind (execute q args) k db
  = match db_execute db q args with
    | (Result fields rows, db1) =>
      (outcome (k rows db1), final (k rows db1),
       EvExecute q args (Result fields rows) :: trace (k rows db1))
    | (Failure e, db1) => (Raise e, db1, [EvExecute q args (Failure e)])
    end.
Proof.
  destruct (db_execute db q args) as [[fields rows|e] db1] eqn:H.
  - now rewrite (bind_ok _ _ _ _ _ _ (execute_result _ _ _ _ _ _ H)).
  - now rewrite (bind_raise _ _ _ _ _ _ (execute_failure _ _ _ _ _ H)).
Qed.

(** *** [table_statistics]: the category of a column *)

Lemma column_stat_statement (table_name : string) (name : value) (t : string)
      (rest : list value) (db : DB) :
  statements (trace (column_stat table_name (name :: VStr t :: rest) db))
  = [stat_stmt (classify t) (py_str name) table_name].
Proof.
  unfold column_stat, classify. pure_steps.
  destruct (classify_lowered (lower t)); cbn [stat_stmt];
    rewrite bind_execute;
    match goal with
    | |- context [db_execute ?d ?q ?a] =>
      destruct (db_execute d q a) as [[f rows|e] db1]
    end; reflexivity.
Qed.

(** C10. The category of a column is decided on the lowered type text by
    the numeric tokens first, then the text tokens, then [Other]: a type
    with both a numeric and a text token is numeric, any type with [int]
    somewhere in it is numeric ([point] is), a type with a text token and
    no numeric one is text, a type with neither is other; and the
    statement [table_statistics] sends for the column is the one of that
    category. *)
Theorem classification_order :
  (forall t, has_token NUMERIC_TOKENS (lower t) = true ->
             has_token TEXT_TOKENS (lower t) = true ->
             classify t = Numeric)
  /\ (forall t, contains "int" (lower t) = true -> classify t = Numeric)
  /\ classify "point" = Numeric
  /\ (forall t, has_token NUMERIC_TOKENS (lower t) = false ->
                has_token TEXT_TOKENS (lower t) = true ->
                classify t = Text)
  /\ (forall t, has_token NUMERIC_TOKENS (lower t) = false ->
                has_token TEXT_TOKENS (lower t) = false ->
                classify t = Other)
  /\ (forall table_name name t rest db,
         statements (trace (column_stat table_name (name :: VStr t :: rest) db))
         = [stat_stmt (classify t) (py_str name) table_name]).
Proof.
  unfold classify, classify_lowered.
  repeat apply conj.
  - intros t Hn _. now rewrite Hn.
  - intros t Hi. unfold has_token, NUMERIC_TOKENS. cbn [existsb].
    now rewrite Hi.
  - reflexivity.
  - intros t Hn Ht. now rewrite Hn, Ht.
  - intros t Hn Ht. now rewrite Hn, Ht.
  - apply column_stat_statement.
Qed.

(** *** Errors inside a handler *)

Lemma fail_fast_lift {A} (r : result A) : fail_fast (lift r).
Proof. intros db q args e []. Qed.

Lemma fail_fast_ret {A} (a : A) : fail_fast (ret a).
Proof. intros db q args e []. Qed.

Lemma fail_fast_execute (q : string) (args : list string) :
  fail_fast (execute q args).
Proof.
  intros db q' args' e.
  destruct (db_execute db q args) as [[fields rows|e0] db1] eqn:H.
  - rewrite (execute_result _ _ _ _ _ _ H). cbn. intros [E|[]]. discriminate E.
  - rewrite (execute_failure _ _ _ _ _ H). cbn. intros [E|[]]. congruence.
Qed.

Lemma fail_fast_bind {A B} (m : M A) (k : A -> M B) :
  fail_fast m -> (forall a, fail_fast (k a)) -> fail_fast (bind m k).
Proof.
  intros Hm Hk db q args e.
  destruct (m db) as [[[a|e0] db1] t1] eqn:E.
  - rewrite (bind_ok _ _ _ _ _ _ E). unfold trace at 1, outcome at 2.
    cbn [fst snd]. intros Hin. apply in_app_or in Hin as [Hin|Hin].
    + specialize (Hm db q args e). rewrite E in Hm.
      specialize (Hm Hin). discriminate Hm.
    + now apply (Hk a db1 q args e).
  - rewrite (bind_raise _ _ _ _ _ _ E). intros Hin.
    specialize (Hm db q args e). rewrite E in Hm. specialize (Hm Hin).
    cbn in *. congruence.
Qed.

Lemma fail_fast_with_connection {A} (body : M A) :
  fail_fast body -> fail_fast (with_connection body).
Proof.
  intros Hb db q args e. unfold with_connection.
  destruct (db_acquire db) as [e0|]; [intros [E|[]]; discriminate E|].
  specialize (Hb db q args e).
  destruct (body db) as [[r db1] t]. cbn in *.
  intros [E|Hin]; [discriminate E|].
  apply in_app_or in Hin as [Hin|[E|[]]]; [now apply Hb | discriminate E].
Qed.

Lemma fail_fast_column_stat (table_name : string) (col : list value) :
  fail_fast (column_stat table_name col).
Proof.
  unfold column_stat.
  repeat (apply fail_fast_bind; [apply fail_fast_lift | intros ?]).
  destruct (classify_lowered _);
    (apply fail_fast_bind; [apply fail_fast_execute | intros ?]);
    apply fail_fast_lift.
Qed.

Lemma fail_fast_stats_loop (table_name : string) (columns : list (list value)) :
  fail_fast (stats_loop table_name columns).
Proof.
  induction columns as [|col rest IH]; cbn [stats_loop];
    [apply fail_fast_ret|].
  apply fail_fast_bind; [apply fail_fast_column_stat | intros s].
  apply fail_fast_bind; [exact IH | intros more]. apply fail_fast_ret.
Qed.

(** [try: m except Exception as e: return f(e)]. *)
Lemma try_except_ret {A} (m : M A) (f : exn -> A) (db : DB) :
  try_except m (fun e => ret (f e)) db
  = (match outcome (m db) with
     | Ok a => Ok a
     | Raise e => Ok (f e)
     end, final (m db), trace (m db)).
Proof.
  unfold try_except, ret.
  destruct (m db) as [[[a|e] db1] t]; cbn; [reflexivity|].
  now rewrite app_nil_r.
Qed.

Lemma table_statistics_body (table_name : string) (db : DB) :
  table_statistics table_name db
  = (match outcome (statistics_body table_name db) with
     | Ok text => Ok text
     | Raise e => Ok (statistics_error e)
     end,
     final (statistics_body table_name db),
     trace (statistics_body table_name db)).
Proof. unfold table_statistics. now rewrite try_except_ret. Qed.

Lemma fail_fast_statistics_body (table_name : string) :
  fail_fast (statistics_body table_name).
Proof.
  apply fail_fast_with_connection.
  apply fail_fast_bind; [apply fail_fast_execute | intros found].
  destruct (fetchone found) as [[|v row]|]; try apply fail_fast_ret.
  apply fail_fast_bind; [apply fail_fast_execute | intros counted].
  apply fail_fast_bind; [apply fail_fast_execute | intros described].
  apply fail_fast_bind; [apply fail_fast_stats_loop | intros stats].
  apply fail_fast_bind; [apply fail_fast_lift | intros c].
  apply fail_fast_ret.
Qed.

Lemma fail_fast_query_body (sql : string) : fail_fast (query_body sql).
Proof.
  apply fail_fast_with_connection.
  intros db q args e. unfold bind, cursor_execute.
  destruct (db_execute db sql []) as [[fields rows|e0] db1]; cbn.
  - intros [E|[]]. discriminate E.
  - intros [E|[]]. congruence.
Qed.

Lemma query_data_body (sql : string) (limit : option Z) (db : DB) :
  is_select (strip sql) = true ->
  query_data sql limit db
  = (match outcome (query_body (add_limit (strip sql) limit) db) with
     | Ok text => Ok text
     | Raise e => Ok (query_error e)
     end,
     final (query_body (add_limit (strip sql) limit) db),
     trace (query_body (add_limit (strip sql) limit) db)).
Proof.
  intros H. unfold query_data. rewrite H. cbn [negb].
  now rewrite try_except_ret.
Qed.

Lemma with_connection_released {A} (body : M A) (db : DB) :
  db_acquire db = None ->
  trace (with_connection body db)
  = (EvAcquire :: trace (body db) ++ [EvRelease])%list.
Proof.
  intros H. unfold with_connection. rewrite H.
  now destruct (body db) as [[r d] t].
Qed.

Lemma with_connection_refused {A} (body : M A) (db : DB) (e : exn) :
  db_acquire db = Some e ->
  with_connection body db = (Raise e, db, [EvRefused e]).
Proof. intros H. unfold with_connection. now rewrite H. Qed.

(** *** [table_statistics]: the existence check and what follows it *)

Lemma statements_app (t1 t2 : list event) :
  statements (t1 ++ t2) = (statements t1 ++ statements t2)%list.
Proof.
  induction t1 as [|[|e|q a r|] t1 IH]; cbn; congruence.
Qed.

Lemma sends_lift {A} (P : string -> Prop) (r : result A) : sends P (lift r).
Proof. intros db. constructor. Qed.

Lemma sends_ret {A} (P : string -> Prop) (a : A) : sends P (ret a).
Proof. intros db. constructor. Qed.

Lemma sends_execute (P : string -> Prop) (q : string) (args : list string) :
  P q -> sends P (execute q args).
Proof.
  intros H db.
  destruct (db_execute db q args) as [[fields rows|e] db1] eqn:E.
  - rewrite (execute_result _ _ _ _ _ _ E). cbn. now repeat constructor.
  - rewrite (execute_failure _ _ _ _ _ E). cbn. now repeat constructor.
Qed.

Lemma sends_bind {A B} (P : string -> Prop) (m : M A) (k : A -> M B) :
  sends P m -> (forall a, sends P (k a)) -> sends P (bind m k).
Proof.
  intros Hm Hk db. specialize (Hm db).
  destruct (m db) as [[[a|e] db1] t1] eqn:E.
  - rewrite (bind_ok _ _ _ _ _ _ E). unfold trace at 1. cbn [snd].
    rewrite statements_app. apply Forall_app. split; [exact Hm | apply Hk].
  - rewrite (bind_raise _ _ _ _ _ _ E). exact Hm.
Qed.

Lemma sends_with_connection {A} (P : string -> Prop) (body : M A) :
  sends P body -> sends P (with_connection body).
Proof.
  intros Hb db. unfold with_connection.
  destruct (db_acquire db); [constructor|].
  specialize (Hb db). destruct (body db) as [[r db1] t]. cbn in *.
  rewrite statements_app. cbn. now rewrite app_nil_r.
Qed.

Lemma sends_stats_loop (table_name : string) (columns : list (list value)) :
  sends (about_table table_name) (stats_loop table_name columns).
Proof.
  induction columns as [|col rest IH]; cbn [stats_loop]; [apply sends_ret|].
  apply sends_bind; [|intros s; apply sends_bind;
                              [exact IH | intros; apply sends_ret]].
  unfold column_stat.
  repeat (apply sends_bind; [apply sends_lift | intros ?]).
  destruct (classify_lowered _) eqn:C;
    (apply sends_bind; [apply sends_execute | intros; apply sends_lift]);
    do 3 right.
  - now exists Numeric, (py_str a).
  - now exists Text, (py_str a).
  - now exists Other, (py_str a).
Qed.

Lemma sends_statistics_body (table_name : string) :
  sends (about_table table_name) (statistics_body table_name).
Proof.
  apply sends_with_connection.
  apply sends_bind; [apply sends_execute; now left | intros found].
  destruct (fetchone found) as [[|v row]|]; try apply sends_ret.
  apply sends_bind; [apply sends_execute; right; now left | intros counted].
  apply sends_bind;
    [apply sends_execute; right; right; now left | intros described].
  apply sends_bind; [apply sends_stats_loop | intros stats].
  apply sends_bind; [apply sends_lift | intros c]. apply sends_ret.
Qed.

(** When the check finds no row, the not-found message is returned and the
    check is the only statement sent. *)
Lemma table_statistics_not_found (table_name : string) (db db1 : DB)
      (fields : list string) :
  db_acquire db = None ->
  db_execute db exists_stmt [table_name] = (Result fields [], db1) ->
  table_statistics table_name db
  = (Ok (not_found table_name), db1,
     [EvAcquire; EvExecute exists_stmt [table_name] (Result fields []);
      EvRelease]).
Proof.
  intros Hacq Hex. rewrite table_statistics_body.
  unfold statistics_body, with_connection. rewrite Hacq.
  rewrite bind_execute, Hex. reflexivity.
Qed.

(** *** [get_table_schema] *)

(** C3, as the code has it. [get_table_schema] makes no existence check and
    has no [try]: when the server rejects the [DESCRIBE] of the name, as it
    does for a table that does not exist, the server's error is raised to
    the caller as it is, not returned as a text; [SHOW CREATE TABLE] is
    not sent, nothing of a description is returned, and the connection is
    given back. *)
Theorem get_table_schema_raises_server_error
        (table_name : string) (db db1 : DB) (e : exn) :
  db_acquire db = None ->
  db_execute db ("DESCRIBE `" ++ table_name ++ "`") [] = (Failure e, db1) ->
  get_table_schema table_name db
  = (Raise e, db1,
     [EvAcquire;
      EvExecute ("DESCRIBE `" ++ table_name ++ "`") [] (Failure e);
      EvRelease]).
Proof.
  intros Hacq Hex. unfold get_table_schema, with_connection. rewrite Hacq.
  rewrite bind_execute. unfold describe_stmt. rewrite Hex. reflexivity.
Qed.

(** *** [table_statistics]: the numbers of a numeric column *)

Lemma rounded_or_none_cases (x : value) :
  (truthy x = true -> rounded_or_none x = round2 x)
  /\ (truthy x = false -> rounded_or_none x = Ok VNone).
Proof. unfold rounded_or_none. split; intros ->; reflexivity. Qed.

(** C4, at the input where the code leaves the claim. The entry of a
    numeric column whose [AVG] is the [Decimal] zero and whose [STD] is the
    [float] zero (both are false as a condition) has [None] for its mean
    and for its deviation, and its line in the report shows [None] for
    them: an aggregate that is zero is reported as unavailable, not as
    [0.0]. *)
Theorem zero_aggregate_reported_as_none (name type mn mx : value) :
  let avg := VObj "Decimal" false "0.0000" in
  let std := VObj "float" false "0.0" in
  numeric_entry name type (Some [mn; mx; avg; std])
  = Ok (NumStat name type mn mx VNone VNone)
  /\ stat_line (NumStat name type mn mx VNone VNone)
     = "| " ++ py_str name ++ " | " ++ py_str type ++ " | " ++ py_str mn
       ++ " | " ++ py_str mx ++ " | None | None |" ++ NL.
Proof. split; reflexivity. Qed.

(** *** [get_relationships] *)

Lemma concat_cons (l : string) (ls : list string) :
  String.concat "" (l :: ls) = l ++ String.concat "" ls.
Proof. destruct ls; cbn; [now rewrite append_nil_r | reflexivity]. Qed.

Lemma append_rows_inv {A} (f : A -> result string) (xs : list A) :
  forall acc s,
    append_rows f xs acc = Ok s ->
    exists lines, Forall2 (fun x l => f x = Ok l) xs lines
                  /\ s = acc ++ String.concat "" lines.
Proof.
  induction xs as [|x xs IH]; intros acc s H; cbn in H.
  - exists []. split; [constructor|]. cbn. rewrite append_nil_r. congruence.
  - destruct (f x) as [l|e] eqn:E; cbn in H; [|discriminate H].
    destruct (IH _ _ H) as (lines & HF & ->).
    exists (l :: lines). split; [now constructor|].
    now rewrite concat_cons, append_assoc.
Qed.










(* ------------------------------------------------------------------ *)
(** *** Further properties: the resource handlers *)

Lemma with_connection_run {A} (body : M A) (db : DB) :
  db_acquire db = None ->
  with_connection body db
  = (outcome (body db), final (body db),
     (EvAcquire :: trace (body db) ++ [EvRelease])%list).
Proof.
  intros H. unfold with_connection. rewrite H.
  now destruct (body db) as [[r d] t].
Qed.

Lemma map_result_all {A B} (f : A -> result B) (g : A -> B) (xs : list A) :
  Forall (fun x => f x = Ok (g x)) xs -> map_result f xs = Ok (map g xs).
Proof.
  induction 1 as [|x xs Hx _ IH]; [reflexivity|].
  cbn [map_result map]. rewrite Hx. cbn [rbind]. now rewrite IH.
Qed.

Lemma lines_of_all {A} (f : A -> result string) (g : A -> string)
      (xs : list A) :
  Forall (fun x => f x = Ok (g x)) xs ->
  Forall2 (fun x l => f x = Ok l) xs (map g xs).
Proof. induction 1; cbn; constructor; assumption. Qed.

Lemma subscript_nth (t : list value) (i : nat) :
  i < length t -> subscript t i = Ok (nth i t VNone).
Proof.
  intros H. unfold subscript.
  destruct (nth_error t i) as [v|] eqn:E.
  - now rewrite (nth_error_nth _ _ VNone E).
  - apply nth_error_None in E. lia.
Qed.

Lemma table_item_name (table : list value) :
  table <> [] -> table_item table = Ok ("- " ++ py_str (nth 0 table VNone)).
Proof. destruct table; [congruence | reflexivity]. Qed.


Lemma schema_row_line (col : list value) :
  6 <= length col -> schema_row col = Ok (schema_line col).
Proof.
  intros H. unfold schema_row, schema_line.
  rewrite !subscript_nth by lia. reflexivity.
Qed.

(** [get_all_tables]: one item per table of the catalog, in the order of
    the catalog, between newlines (no text at all for an empty catalog);
    one statement, and the connection given back. *)
Theorem get_all_tables_lists_catalog
        (db db1 : DB) (fields : list string) (tables : list (list value)) :
  db_acquire db = None ->
  db_execute db "SHOW TABLES" [] = (Result fields tables, db1) ->
  Forall (fun table => table <> []) tables ->
  get_all_tables db
  = (Ok (join NL (map (fun table => "- " ++ py_str (nth 0 table VNone))
                      tables)),
     db1,
     [EvAcquire; EvExecute "SHOW TABLES" [] (Result fields tables);
      EvRelease]).
Proof.
  intros Hacq Hex Hne. unfold get_all_tables.
  rewrite (with_connection_run _ _ Hacq), bind_execute, Hex.
  unfold fetchall.
  rewrite (map_result_all table_item
             (fun table => "- " ++ py_str (nth 0 table VNone))).
  - rewrite bind_lift_ok. reflexivity.
  - eapply Forall_impl; [|exact Hne]. apply table_item_name.
Qed.


(** [get_table_schema] on a table the server describes: the title, the
    header, one line per column in the order of [DESCRIBE], a default that
    is false as a condition ([None], the empty text) shown as [NULL], and
    the creation statement as the server gave it; two statements, and the
    connection given back. *)
Theorem get_table_schema_describes
        (table_name : string) (db db1 db2 : DB) (fields fields' : list string)
        (columns : list (list value)) (row : list value)
        (rows : list (list value)) :
  db_acquire db = None ->
  db_execute db (describe_stmt table_name) [] = (Result fields columns, db1) ->
  db_execute db1 (show_create_stmt table_name) []
  = (Result fields' (row :: rows), db2) ->
  Forall (fun col => 6 <= length col) columns ->
  2 <= length row ->
  get_table_schema table_name db
  = (Ok ("# 表结构: " ++ table_name ++ NL ++ NL
         ++ "## 列信息" ++ NL ++ NL
         ++ "| 字段名 | 类型 | 可为空 | 键 | 默认值 | 额外信息 |" ++ NL
         ++ "| ------ | ---- | ------ | -- | ------ | -------- |" ++ NL
         ++ String.concat "" (map schema_line columns)
         ++ NL ++ "## 创建语句" ++ NL ++ NL ++ "```sql" ++ NL
         ++ py_str (nth 1 row VNone) ++ NL ++ "```" ++ NL),
     db2,
     [EvAcquire;
      EvExecute (describe_stmt table_name) [] (Result fields columns);
      EvExecute (show_create_stmt table_name) [] (Result fields' (row :: rows));
      EvRelease]).
Proof.
  intros Hacq Hdesc Hshow Hcols Hrow. unfold get_table_schema.
  rewrite (with_connection_run _ _ Hacq), bind_execute, Hdesc.
  rewrite bind_execute, Hshow. unfold fetchall, fetchone.
  rewrite (append_rows_lines schema_row columns _
             (lines_of_all _ _ _ (Forall_impl _ schema_row_line Hcols))).
  rewrite bind_lift_ok. cbn [hd_error subscript_opt].
  rewrite (subscript_nth row 1) by lia. rewrite bind_lift_ok.
  unfold ret, outcome, final, trace. cbn [fst snd app].
  now rewrite !append_assoc.
Qed.

Lemma fail_fast_relations_loop (tables : list (list value)) :
  forall result has, fail_fast (relations_loop tables result has).
Proof.
  induction tables as [|table rest IH]; intros result has;
    cbn [relations_loop]; [apply fail_fast_ret|].
  apply fail_fast_bind; [apply fail_fast_lift | intros name].
  apply fail_fast_bind; [apply fail_fast_execute | intros rels].
  destruct (fetchall rels); [apply IH|].
  apply fail_fast_bind; [apply fail_fast_lift | intros; apply IH].
Qed.

Lemma fail_fast_get_all_tables : fail_fast get_all_tables.
Proof.
  apply fail_fast_with_connection.
  apply fail_fast_bind; [apply fail_fast_execute | intros tables].
  apply fail_fast_bind; [apply fail_fast_lift | intros; apply fail_fast_ret].
Qed.

Lemma fail_fast_list_schemas : fail_fast list_schemas.
Proof.
  apply fail_fast_with_connection.
  apply fail_fast_bind; [apply fail_fast_execute | intros tables].
  apply fail_fast_bind; [apply fail_fast_lift | intros; apply fail_fast_ret].
Qed.

Lemma fail_fast_get_table_schema (table_name : string) :
  fail_fast (get_table_schema table_name).
Proof.
  apply fail_fast_with_connection.
  apply fail_fast_bind; [apply fail_fast_execute | intros columns].
  apply fail_fast_bind; [apply fail_fast_execute | intros created].
  apply fail_fast_bind; [apply fail_fast_lift | intros result].
  apply fail_fast_bind; [apply fail_fast_lift | intros; apply fail_fast_ret].
Qed.

Lemma fail_fast_get_relationships : fail_fast get_relationships.
Proof.
  apply fail_fast_with_connection.
  apply fail_fast_bind; [apply fail_fast_execute | intros tables].
  apply fail_fast_bind; [apply fail_fast_relations_loop | intros [r h]].
  apply fail_fast_ret.
Qed.

(** The four resource handlers have no [try]: the first statement the
    server rejects ends the handler with the server's error raised to the
    caller, so no text, partial or whole, is returned; and a refused
    acquisition is raised the same way, before any statement. *)
Theorem resource_handlers_raise :
  (forall db q args e,
      In (EvExecute q args (Failure e)) (trace (get_all_tables db)) ->
      outcome (get_all_tables db) = Raise e)
  /\ (forall db q args e,
         In (EvExecute q args (Failure e)) (trace (list_schemas db)) ->
         outcome (list_schemas db) = Raise e)
  /\ (forall table_name db q args e,
         In (EvExecute q args (Failure e))
            (trace (get_table_schema table_name db)) ->
         outcome (get_table_schema table_name db) = Raise e)
  /\ (forall db q args e,
         In (EvExecute q args (Failure e)) (trace (get_relationships db)) ->
         outcome (get_relationships db) = Raise e)
  /\ (forall table_name db e,
         db_acquire db = Some e ->
         get_all_tables db = (Raise e, db, [EvRefused e])
         /\ list_schemas db = (Raise e, db, [EvRefused e])
         /\ get_table_schema table_name db = (Raise e, db, [EvRefused e])
         /\ get_relationships db = (Raise e, db, [EvRefused e])).
Proof.
  repeat apply conj.
  - exact fail_fast_get_all_tables.
  - exact fail_fast_list_schemas.
  - exact fail_fast_get_table_schema.
  - exact fail_fast_get_relationships.
  - intros table_name db e H. repeat split;
      apply with_connection_refused; exact H.
Qed.

(** *** Further properties: the pool's discipline *)

Lemma statements_only_lift {A} (r : result A) : statements_only (lift r).
Proof. intros db. constructor. Qed.

Lemma statements_only_ret {A} (a : A) : statements_only (ret a).
Proof. intros db. constructor. Qed.

Lemma statements_only_execute (q : string) (args : list string) :
  statements_only (execute q args).
Proof.
  intros db.
  destruct (db_execute db q args) as [[fields rows|e] db1] eqn:E.
  - rewrite (execute_result _ _ _ _ _ _ E).
    repeat constructor. now exists q, args, (Result fields rows).
  - rewrite (execute_failure _ _ _ _ _ E).
    repeat constructor. now exists q, args, (Failure e).
Qed.

Lemma statements_only_cursor_execute (q : string) (args : list string) :
  statements_only (cursor_execute q args).
Proof.
  intros db. unfold cursor_execute.
  destruct (db_execute db q args) as [[fields rows|e] db1];
    repeat constructor; eexists q, args, _; reflexivity.
Qed.

Lemma statements_only_bind {A B} (m : M A) (k : A -> M B) :
  statements_only m -> (forall a, statements_only (k a)) ->
  statements_only (bind m k).
Proof.
  intros Hm Hk db. specialize (Hm db).
  destruct (m db) as [[[a|e] db1] t1] eqn:E.
  - rewrite (bind_ok _ _ _ _ _ _ E). unfold trace at 1. cbn [snd].
    apply Forall_app. split; [exact Hm | apply Hk].
  - rewrite (bind_raise _ _ _ _ _ _ E). exact Hm.
Qed.

Lemma with_connection_bracketed {A} (body : M A) :
  statements_only body -> forall db, bracketed (trace (with_connection body db)).
Proof.
  intros Hb db. unfold with_connection.
  destruct (db_acquire db) as [e|].
  - right. left. now exists e.
  - right. right. specialize (Hb db).
    destruct (body db) as [[r d] t]. exists t. split; [reflexivity | exact Hb].
Qed.

Lemma statements_only_relations_loop (tables : list (list value)) :
  forall result has, statements_only (relations_loop tables result has).
Proof.
  induction tables as [|table rest IH]; intros result has;
    cbn [relations_loop]; [apply statements_only_ret|].
  apply statements_only_bind; [apply statements_only_lift | intros name].
  apply statements_only_bind; [apply statements_only_execute | intros rels].
  destruct (fetchall rels); [apply IH|].
  apply statements_only_bind; [apply statements_only_lift | intros; apply IH].
Qed.

Lemma statements_only_stats_loop (table_name : string)
      (columns : list (list value)) :
  statements_only (stats_loop table_name columns).
Proof.
  induction columns as [|col rest IH]; cbn [stats_loop];
    [apply statements_only_ret|].
  apply statements_only_bind;
    [|intros s; apply statements_only_bind;
               [exact IH | intros; apply statements_only_ret]].
  unfold column_stat.
  repeat (apply statements_only_bind; [apply statements_only_lift | intros ?]).
  destruct (classify_lowered _);
    (apply statements_only_bind;
     [apply statements_only_execute | intros; apply statements_only_lift]).
Qed.

(** On every way through every handler the pool is used in one way: either
    nothing is asked of it (a rejected query), or the acquisition is
    refused, or one connection is acquired, statements are sent on it, and
    it is released last, whether the handler returns or raises; no handler
    acquires twice or releases in the middle. *)
Theorem handlers_keep_pool_discipline :
  (forall db, bracketed (trace (get_all_tables db)))
  /\ (forall db, bracketed (trace (list_schemas db)))
  /\ (forall table_name db, bracketed (trace (get_table_schema table_name db)))
  /\ (forall db, bracketed (trace (get_relationships db)))
  /\ (forall sql limit db, bracketed (trace (query_data sql limit db)))
  /\ (forall table_name db, bracketed (trace (table_statistics table_name db))).
Proof.
  repeat apply conj.
  - apply with_connection_bracketed.
    apply statements_only_bind; [apply statements_only_execute | intros].
    apply statements_only_bind;
      [apply statements_only_lift | intros; apply statements_only_ret].
  - apply with_connection_bracketed.
    apply statements_only_bind; [apply statements_only_execute | intros].
    apply statements_only_bind;
      [apply statements_only_lift | intros; apply statements_only_ret].
  - intros table_name. apply with_connection_bracketed.
    apply statements_only_bind; [apply statements_only_execute | intros].
    apply statements_only_bind; [apply statements_only_execute | intros].
    apply statements_only_bind; [apply statements_only_lift | intros].
    apply statements_only_bind;
      [apply statements_only_lift | intros; apply statements_only_ret].
  - apply with_connection_bracketed.
    apply statements_only_bind; [apply statements_only_execute | intros].
    apply statements_only_bind;
      [apply statements_only_relations_loop | intros [r h]].
    apply statements_only_ret.
  - intros sql limit db.
    destruct (is_select (strip sql)) eqn:Hsel.
    + rewrite (query_data_body _ _ _ Hsel). unfold trace at 1. cbn [snd].
      apply with_connection_bracketed.
      apply statements_only_bind;
        [apply statements_only_cursor_execute | intros [f rows]].
      apply statements_only_lift.
    + rewrite (query_data_rejected _ _ _ Hsel). now left.
  - intros table_name db. rewrite table_statistics_body.
    unfold trace at 1. cbn [snd]. apply with_connection_bracketed.
    apply statements_only_bind; [apply statements_only_execute | intros found].
    destruct (fetchone found) as [[|v row]|]; try apply statements_only_ret.
    apply statements_only_bind; [apply statements_only_execute | intros].
    apply statements_only_bind; [apply statements_only_execute | intros].
    apply statements_only_bind; [apply statements_only_stats_loop | intros].
    apply statements_only_bind;
      [apply statements_only_lift | intros; apply statements_only_ret].
Qed.

(** *** Further properties: the statements the handlers send *)

Lemma sends_relations_forms (tables : list (list value)) :
  forall result has,
    sends (fun q => q = "SHOW TABLES" \/ exists table, q = fk_stmt table)
          (relations_loop tables result has).
Proof.
  induction tables as [|table rest IH]; intros result has;
    cbn [relations_loop]; [apply sends_ret|].
  apply sends_bind; [apply sends_lift | intros name].
  apply sends_bind; [apply sends_execute; right; eauto | intros rels].
  destruct (fetchall rels); [apply IH|].
  apply sends_bind; [apply sends_lift | intros; apply IH].
Qed.

(** The statements of the handlers other than [query_data], in the file's
    own terms. *)
Lemma handlers_statement_forms :
  (forall db,
      Forall (fun q => q = "SHOW TABLES") (statements (trace (get_all_tables db))))
  /\ (forall db,
         Forall (fun q => q = "SHOW TABLES")
                (statements (trace (list_schemas db))))
  /\ (forall table_name db,
         Forall (fun q => q = describe_stmt table_name
                          \/ q = show_create_stmt table_name)
                (statements (trace (get_table_schema table_name db))))
  /\ (forall db,
         Forall (fun q => q = "SHOW TABLES" \/ exists table, q = fk_stmt table)
                (statements (trace (get_relationships db))))
  /\ (forall table_name db,
         Forall (about_table table_name)
                (statements (trace (table_statistics table_name db)))).
Proof.
  repeat apply conj.
  - apply sends_with_connection.
    apply sends_bind; [now apply sends_execute | intros].
    apply sends_bind; [apply sends_lift | intros; apply sends_ret].
  - apply sends_with_connection.
    apply sends_bind; [now apply sends_execute | intros].
    apply sends_bind; [apply sends_lift | intros; apply sends_ret].
  - intros table_name. apply sends_with_connection.
    apply sends_bind; [apply sends_execute; now left | intros].
    apply sends_bind; [apply sends_execute; now right | intros].
    apply sends_bind; [apply sends_lift | intros].
    apply sends_bind; [apply sends_lift | intros; apply sends_ret].
  - apply sends_with_connection.
    apply sends_bind; [apply sends_execute; now left | intros tables].
    apply sends_bind; [apply sends_relations_forms | intros [r h]].
    apply sends_ret.
  - intros table_name db. rewrite table_statistics_body.
    unfold trace at 1. cbn [snd]. apply sends_statistics_body.
Qed.

(* ------------------------------------------------------------------ *)
(** *** Further properties: the guard and the normalised statement *)

Lemma is_prefix_app (p a b : string) :
  is_prefix p a = true -> is_prefix p (a ++ b) = true.
Proof.
  revert a. induction p as [|c p IH]; intros a H; [reflexivity|].
  destruct a as [|d a]; [discriminate H|].
  cbn [is_prefix append] in *.
  apply andb_true_iff in H as [-> H]. now rewrite (IH _ H).
Qed.

Lemma is_select_add_limit (sql : string) (limit : option Z) :
  is_select sql = true -> is_select (add_limit sql limit) = true.
Proof.
  intros H. unfold add_limit.
  destruct limit as [n|]; [|exact H].
  destruct (negb _); [|exact H].
  unfold is_select, startswith in *. rewrite lower_app.
  now apply is_prefix_app.
Qed.

(** Whatever the input, the bound, the pool and the server, [query_data]
    sends at most one statement, and a statement it sends begins, in some
    letter case, with SELECT. *)
Theorem query_data_sends_only_select
        (sql : string) (limit : option Z) (db : DB) :
  (statements (trace (query_data sql limit db)) = []
   \/ statements (trace (query_data sql limit db))
      = [add_limit (strip sql) limit])
  /\ Forall (fun q => is_select q = true)
            (statements (trace (query_data sql limit db))).
Proof.
  destruct (is_select (strip sql)) eqn:Hsel.
  - destruct (db_acquire db) as [e|] eqn:Hacq.
    + rewrite (query_data_body _ _ _ Hsel). unfold query_body.
      rewrite (with_connection_refused _ _ _ Hacq).
      split; [now left | constructor].
    + rewrite (query_data_statements _ _ _ Hsel Hacq).
      split; [now right|].
      repeat constructor. now apply is_select_add_limit.
  - rewrite (query_data_rejected _ _ _ Hsel). split; [now left | constructor].
Qed.

(** A character that lowers to a small letter starts no whitespace. *)
Lemma lowered_letter_not_space (c x : ascii) (t : string) :
  lower_char c = x ->
  ((97 <=? nat_of_ascii x) && (nat_of_ascii x <=? 122))%nat = true ->
  ws_len (String c t) = 0.
Proof.
  intros <-.
  destruct c as [[] [] [] [] [] [] [] []]; cbv; intros H;
    try discriminate H; destruct t as [|b [|d t']]; reflexivity.
Qed.

Lemma rstrip_keeps_letter (c x : ascii) (t : string) :
  lower_char c = x ->
  ((97 <=? nat_of_ascii x) && (nat_of_ascii x <=? 122))%nat = true ->
  lstrip (String c t) = String c t
  /\ rstrip (String c t) = String c (rstrip t).
Proof.
  intros Hc Hx.
  assert (Hl : lstrip (String c t) = String c t).
  { unfold lstrip. cbn [String.length lstrip_from].
    now rewrite (lowered_letter_not_space c x t Hc Hx). }
  split; [exact Hl|].
  cbn [rstrip]. unfold all_ws. rewrite Hl. reflexivity.
Qed.

(** The guard looks at the first six characters only.  For any text that
    begins with SELECT in some letter case, whatever follows (a second
    statement after a semicolon, [INTO OUTFILE]), the guard is passed, only
    trailing whitespace is trimmed, and the whole text goes to the server
    after the [LIMIT] step. *)
Theorem select_prefix_passes_guard
        (head rest : string) (limit : option Z) (db : DB) :
  lower head = "select" ->
  db_acquire db = None ->
  strip (head ++ rest) = head ++ rstrip rest
  /\ statements (trace (query_data (head ++ rest) limit db))
     = [add_limit (head ++ rstrip rest) limit].
Proof.
  intros Hhead Hacq.
  assert (Hstrip : strip (head ++ rest) = head ++ rstrip rest).
  { destruct head as [|c1 [|c2 [|c3 [|c4 [|c5 [|c6 [|c7 t]]]]]]];
      try discriminate Hhead.
    cbn [lower] in Hhead.
    injection Hhead as H1 H2 H3 H4 H5 H6.
    unfold strip. cbn [append].
    rewrite (proj1 (rstrip_keeps_letter c1 _ _ H1 eq_refl)).
    rewrite (proj2 (rstrip_keeps_letter c1 _ _ H1 eq_refl)).
    rewrite (proj2 (rstrip_keeps_letter c2 _ _ H2 eq_refl)).
    rewrite (proj2 (rstrip_keeps_letter c3 _ _ H3 eq_refl)).
    rewrite (proj2 (rstrip_keeps_letter c4 _ _ H4 eq_refl)).
    rewrite (proj2 (rstrip_keeps_letter c5 _ _ H5 eq_refl)).
    rewrite (proj2 (rstrip_keeps_letter c6 _ _ H6 eq_refl)).
    reflexivity. }
  split; [exact Hstrip|].
  rewrite query_data_statements; [now rewrite Hstrip | | exact Hacq].
  rewrite Hstrip. unfold is_select, startswith.
  rewrite lower_app, Hhead. reflexivity.
Qed.

Lemma contains_app_r (p a b : string) :
  contains p b = true -> contains p (a ++ b) = true.
Proof.
  intros H. induction a as [|c a IH]; [exact H|].
  cbn [append contains]. rewrite IH. apply orb_true_r.
Qed.

(** The [LIMIT] step done twice is the step done once: a statement that
    went through it with a bound is left as it is by a second pass, with
    any bound, so no statement gets a second [LIMIT]. *)
Theorem add_limit_idempotent (sql : string) (n : Z) (limit : option Z) :
  add_limit (add_limit sql (Some n)) limit = add_limit sql (Some n).
Proof.
  assert (H : contains "limit" (lower (add_limit sql (Some n))) = true).
  { cbn [add_limit].
    destruct (contains "limit" (lower sql)) eqn:E; cbn [negb]; [exact E|].
    rewrite lower_app. apply contains_app_r.
    rewrite lower_app. reflexivity. }
  destruct limit as [m|]; [|reflexivity].
  cbn [add_limit] in *. now rewrite H.
Qed.

(** *** Further properties: the cells *)

Lemma escape_pipe_head (s t : string) : escape_pipe s <> String "|" t.
Proof.
  destruct s as [|c s]; [discriminate|].
  cbn [escape_pipe]. destruct (Ascii.eqb_spec c "|") as [->|Hc].
  - discriminate.
  - congruence.
Qed.

Lemma unescape_escape (s : string) : unescape_pipe (escape_pipe s) = s.
Proof.
  induction s as [|c s IH]; [reflexivity|].
  cbn [escape_pipe]. destruct (Ascii.eqb_spec c "|") as [->|Hc].
  - cbn [unescape_pipe]. cbn. now rewrite IH.
  - cbn [unescape_pipe].
    destruct (escape_pipe s) as [|d t'] eqn:E.
    + cbn in IH. now subst s.
    + destruct (Ascii.eqb_spec d "|") as [->|Hd].
      * now elim (escape_pipe_head s t').
      * rewrite andb_false_r. now rewrite IH.
Qed.

(** The escaping of a cell loses nothing: reading [\|] back as [|] gives
    the text of the cell again, so two different texts never render as the
    same cell. *)
Theorem escape_pipe_round_trip :
  (forall s, unescape_pipe (escape_pipe s) = s)
  /\ (forall a b, escape_pipe a = escape_pipe b -> a = b).
Proof.
  split; [exact unescape_escape|].
  intros a b H. rewrite <- (unescape_escape a), <- (unescape_escape b).
  now rewrite H.
Qed.

(* ------------------------------------------------------------------ *)
(** *** Further properties: rows of plain cells always render *)

Lemma keys_dict_set (d d' : dict) (k : string) (v v' : value) :
  keys d = keys d' -> keys (dict_set d k v) = keys (dict_set d' k v').
Proof.
  revert d'. induction d as [|[k1 v1] d IH]; intros [|[k2 v2] d'] H;
    try discriminate H; [reflexivity|].
  cbn [keys map fst] in H. injection H as -> H.
  cbn [dict_set]. destruct (String.eqb k2 k); cbn [keys map fst].
  - f_equal. exact H.
  - f_equal. now apply IH.
Qed.

Lemma keys_fold_set (fields : list string) :
  forall (row row' : list value) (d d' : dict),
    length row = length row' ->
    keys d = keys d' ->
    keys (fold_left (fun d kv => dict_set d (fst kv) (snd kv))
                    (combine fields row) d)
    = keys (fold_left (fun d kv => dict_set d (fst kv) (snd kv))
                      (combine fields row') d').
Proof.
  induction fields as [|f fields IH]; intros row row' d d' Hlen Hk;
    [exact Hk|].
  destruct row as [|v row], row' as [|v' row']; try discriminate Hlen;
    [exact Hk|].
  cbn [combine fold_left fst snd]. apply IH; [now injection Hlen|].
  now apply keys_dict_set.
Qed.

(** The keys of a [DictCursor] row depend on the fields and the width of the
    row only. *)
Lemma keys_dict_zip (fields : list string) (row row' : list value) :
  length row = length row' ->
  keys (dict_zip fields row) = keys (dict_zip fields row').
Proof. intros H. unfold dict_zip. now apply keys_fold_set. Qed.

Lemma values_dict_set (d : dict) (k : string) (v x : value) :
  In x (map snd (dict_set d k v)) -> x = v \/ In x (map snd d).
Proof.
  induction d as [|[k1 v1] d IH]; cbn [dict_set].
  - cbn. intros [<-|[]]. now left.
  - destruct (String.eqb k1 k); cbn [map snd In].
    + intros [<-|H]; [now left | right; now right].
    + intros [<-|H]; [right; now left|].
      destruct (IH H) as [->|H']; [now left | right; now right].
Qed.

Lemma values_fold_set (l : list (string * value)) :
  forall (d : dict) (x : value),
    In x (map snd (fold_left (fun d kv => dict_set d (fst kv) (snd kv)) l d)) ->
    In x (map snd l) \/ In x (map snd d).
Proof.
  induction l as [|[k v] l IH]; intros d x H; [now right|].
  cbn [fold_left fst snd] in H.
  destruct (IH _ _ H) as [H'|H']; [left; now right|].
  destruct (values_dict_set _ _ _ _ H') as [->|H''];
    [left; now left | now right].
Qed.

Lemma values_dict_zip (fields : list string) (row : list value) (x : value) :
  In x (map snd (dict_zip fields row)) -> In x row.
Proof.
  intros H. unfold dict_zip in H.
  destruct (values_fold_set _ _ _ H) as [H'|[]].
  apply in_map_iff in H' as ([k v] & <- & Hin).
  exact (in_combine_r _ _ _ _ Hin).
Qed.

Lemma dict_get_key (d : dict) (k : string) :
  In k (keys d) -> exists v, dict_get d k = Some v /\ In v (map snd d).
Proof.
  induction d as [|[k1 v1] d IH]; [intros []|].
  cbn [keys map fst dict_get snd In].
  destruct (String.eqb_spec k1 k) as [->|Hk].
  - intros _. exists v1. split; [reflexivity | now left].
  - intros [E|Hin]; [congruence|].
    destruct (IH Hin) as (v & Hv & Hin'). exists v. split; [exact Hv | now right].
Qed.

Lemma format_cell_plain (v : value) :
  is_structured v = false -> exists text, format_cell v = Ok text.
Proof.
  destruct v; intros H; try discriminate H; eexists; reflexivity.
Qed.

Lemma format_cells_plain (d : dict) (columns : list string) :
  (forall col, In col columns ->
               exists v, dict_get d col = Some v /\ is_structured v = false) ->
  exists cells, format_cells d columns = Ok cells.
Proof.
  induction columns as [|col columns IH]; intros H; [now exists []|].
  destruct (H col (or_introl eq_refl)) as (v & Hv & Hs).
  destruct (format_cell_plain v Hs) as (text & Ht).
  destruct IH as (cells & Hc); [intros c Hin; apply H; now right|].
  exists (text :: cells). cbn [format_cells]. unfold getitem.
  rewrite Hv. cbn [rbind]. rewrite Ht. cbn [rbind]. now rewrite Hc.
Qed.

Lemma rows_have_lines {A} (f : A -> result string) (xs : list A) :
  Forall (fun x => exists l, f x = Ok l) xs ->
  exists lines, Forall2 (fun x l => f x = Ok l) xs lines.
Proof.
  induction 1 as [|x xs (l & Hl) _ (lines & IH)]; [now exists []|].
  exists (l :: lines). now constructor.
Qed.

Lemma format_cell_plain_text (v : value) :
  is_structured v = false ->
  format_cell v
  = Ok (match v with VNone => "NULL" | _ => escape_pipe (py_str v) end).
Proof. destruct v; intros H; try discriminate H; reflexivity. Qed.

Lemma format_cells_plain_texts (d : dict) (columns : list string) :
  (forall col, In col columns ->
               exists v, dict_get d col = Some v /\ is_structured v = false) ->
  exists cells,
    format_cells d columns = Ok cells
    /\ Forall2 (fun col text =>
                  exists v, dict_get d col = Some v
                            /\ text = match v with
                                      | VNone => "NULL"
                                      | _ => escape_pipe (py_str v)
                                      end) columns cells.
Proof.
  induction columns as [|col columns IH]; intros H.
  - exists []. split; [reflexivity | constructor].
  - destruct (H col (or_introl eq_refl)) as (v & Hv & Hs).
    destruct IH as (cells & Hc & HF); [intros c Hin; apply H; now right|].
    eexists (_ :: cells). split.
    + cbn [format_cells]. unfold getitem. rewrite Hv. cbn [rbind].
      rewrite (format_cell_plain_text v Hs). cbn [rbind]. now rewrite Hc.
    + constructor; [now exists v | exact HF].
Qed.

Lemma Forall_exists_Forall2 {A B} (P : A -> B -> Prop) (xs : list A) :
  Forall (fun x => exists y, P x y) xs -> exists ys, Forall2 P xs ys.
Proof.
  induction 1 as [|x xs (y & Hy) _ (ys & IH)]; [now exists []|].
  exists (y :: ys). now constructor.
Qed.

Lemma Forall2_map_left {A B C} (f : A -> B) (P : B -> C -> Prop)
      (xs : list A) (ys : list C) :
  Forall2 (fun x y => P (f x) y) xs ys -> Forall2 P (map f xs) ys.
Proof. induction 1; cbn [map]; now constructor. Qed.

(** A result set whose rows have the width of the first and hold no
    [dict] or [list] cell is always rendered as a table with one line per
    row, in the order of the rows: no lookup of a column in a row fails, so
    the answer is never the error text.  The line of a row is what
    [format_row] gives for it: between [" | "], for each column in order,
    [NULL] for a [None] cell and otherwise the [str()] of the cell with
    every [|] preceded by a backslash. *)
Theorem plain_rows_always_render
        (sql : string) (limit : option Z) (db db1 : DB)
        (fields : list string) (row : list value) (rows : list (list value)) :
  is_select (strip sql) = true ->
  db_acquire db = None ->
  db_execute db (add_limit (strip sql) limit) []
  = (Result fields (row :: rows), db1) ->
  Forall (fun r => length r = length row) rows ->
  Forall (Forall (fun v => is_structured v = false)) (row :: rows) ->
  let columns := keys (dict_zip fields row) in
  let cell_text := fun v : value =>
    match v with VNone => "NULL" | _ => escape_pipe (py_str v) end in
  exists lines,
    length lines = S (length rows)
    /\ Forall2 (fun r l =>
                  format_row columns (dict_zip fields r) = Ok l
                  /\ exists cells,
                      Forall2 (fun col text =>
                                 exists v,
                                   dict_get (dict_zip fields r) col = Some v
                                   /\ text = cell_text v) columns cells
                      /\ l = "| " ++ join " | " cells ++ " |" ++ NL)
               (row :: rows) lines
    /\ outcome (query_data sql limit db)
       = Ok ("查询结果 (" ++ dec_of_nat (S (length rows)) ++ " 行):"
             ++ NL ++ NL
             ++ ("| " ++ join " | " columns ++ " |" ++ NL
                 ++ "| " ++ join " | " (map (fun _ => "---") columns)
                 ++ " |" ++ NL)
             ++ String.concat "" lines).
Proof.
  intros Hsel Hacq Hex Hwidth Hplain columns cell_text.
  assert (Hrows :
            Forall (fun r =>
                      exists l,
                        format_row columns (dict_zip fields r) = Ok l
                        /\ exists cells,
                            Forall2 (fun col text =>
                                       exists v,
                                         dict_get (dict_zip fields r) col
                                         = Some v
                                         /\ text = cell_text v) columns cells
                            /\ l = "| " ++ join " | " cells ++ " |" ++ NL)
                   (row :: rows)).
  { apply Forall_forall. intros r Hin.
    assert (Hlen : length r = length row).
    { destruct Hin as [<-|Hin]; [reflexivity|].
      rewrite Forall_forall in Hwidth. now apply Hwidth. }
    destruct (format_cells_plain_texts (dict_zip fields r) columns)
      as (cells & Hc & HF).
    - intros col Hcol. subst columns.
      rewrite (keys_dict_zip fields row r (eq_sym Hlen)) in Hcol.
      destruct (dict_get_key _ _ Hcol) as (v & Hv & Hin').
      exists v. split; [exact Hv|].
      apply values_dict_zip in Hin'.
      rewrite Forall_forall in Hplain. specialize (Hplain r Hin).
      rewrite Forall_forall in Hplain. now apply Hplain.
    - exists ("| " ++ join " | " cells ++ " |" ++ NL). split.
      + unfold format_row. now rewrite Hc.
      + now exists cells. }
  destruct (Forall_exists_Forall2 _ _ Hrows) as (lines & Hlines).
  exists lines. split; [|split; [exact Hlines|]].
  - rewrite <- (Forall2_length Hlines). reflexivity.
  - assert (Hfmt : Forall2 (fun r l => format_row columns r = Ok l)
                           (map (dict_zip fields) (row :: rows)) lines).
    { apply Forall2_map_left.
      revert Hlines. apply Forall2_impl. now intros r l [H _]. }
    rewrite (query_data_run _ _ _ _ _ _ Hsel Hacq Hex).
    unfold outcome. cbn [fst]. unfold render_results. cbn [map].
    fold columns.
    change (dict_zip fields row :: map (dict_zip fields) rows)
      with (map (dict_zip fields) (row :: rows)).
    rewrite (append_rows_lines _ _ _ Hfmt). cbn [rbind].
    cbn [map length]. rewrite length_map, !append_assoc. reflexivity.
Qed.

(* ------------------------------------------------------------------ *)
(** *** Further properties: the report of [table_statistics] *)

Ltac split_binds H :=
  repeat match type of H with
         | context [rbind ?x _] =>
           destruct x; cbn [rbind] in H; try discriminate H
         end.

Lemma numeric_entry_fields (n ty : value) (r : option (list value)) (s : stat) :
  numeric_entry n ty r = Ok s ->
  stat_column s = n /\ stat_type s = ty /\ stat_category s = Numeric.
Proof.
  intros H. unfold numeric_entry in H. split_binds H.
  apply Ok_inj in H. now subst s.
Qed.

Lemma text_entry_fields (n ty : value) (r : option (list value)) (s : stat) :
  text_entry n ty r = Ok s ->
  stat_column s = n /\ stat_type s = ty /\ stat_category s = Text.
Proof.
  intros H. unfold text_entry in H. split_binds H.
  apply Ok_inj in H. now subst s.
Qed.

Lemma other_entry_fields (n ty : value) (r : option (list value)) (s : stat) :
  other_entry n ty r = Ok s ->
  stat_column s = n /\ stat_type s = ty /\ stat_category s = Other.
Proof.
  intros H. unfold other_entry in H. split_binds H.
  apply Ok_inj in H. now subst s.
Qed.

Lemma run_inv {A} (x : result A * DB * list event) (r : result A) (d : DB)
      (t : list event) :
  x = (r, d, t) -> outcome x = r /\ final x = d /\ trace x = t.
Proof. intros ->. repeat split. Qed.

(** A column that gets its entry: one statement, the one of its category,
    and an entry with its name, its type and that category. *)
Lemma column_stat_ok (table_name : string) (col : list value) (db db' : DB)
      (s : stat) (t : list event) :
  column_stat table_name col db = (Ok s, db', t) ->
  statements t
  = [stat_stmt (column_category col) (py_str (nth 0 col VNone)) table_name]
  /\ stat_column s = nth 0 col VNone
  /\ stat_type s = nth 1 col VNone
  /\ stat_category s = column_category col.
Proof.
  intros H. unfold column_stat in H.
  destruct col as [|c0 [|c1 rest]]; pure_steps_in H; try discriminate H.
  destruct c1 as [| | |ty| | |]; pure_steps_in H; try discriminate H.
  unfold column_category, classify. cbn [nth].
  destruct (classify_lowered (lower ty)); cbn [stat_stmt];
    rewrite bind_execute in H;
    match type of H with
    | context [db_execute ?d ?q ?a] =>
      destruct (db_execute d q a) as [[f rows|e] d1]
    end; try discriminate H;
    apply run_inv in H as (Hs & _ & <-);
    unfold outcome, lift in Hs; cbn [fst] in Hs;
    (split; [reflexivity|]).
  - exact (numeric_entry_fields _ _ _ _ Hs).
  - exact (text_entry_fields _ _ _ _ Hs).
  - exact (other_entry_fields _ _ _ _ Hs).
Qed.

Lemma stats_loop_ok (table_name : string) (columns : list (list value)) :
  forall db db' stats t,
    stats_loop table_name columns db = (Ok stats, db', t) ->
    statements t
    = map (fun col => stat_stmt (column_category col)
                                (py_str (nth 0 col VNone)) table_name)
          columns
    /\ map stat_column stats = map (fun col => nth 0 col VNone) columns
    /\ map stat_type stats = map (fun col => nth 1 col VNone) columns
    /\ map stat_category stats = map column_category columns.
Proof.
  induction columns as [|col rest IH]; intros db db' stats t H;
    cbn [stats_loop] in H.
  - unfold ret in H. apply run_inv in H as (Hs & _ & <-).
    apply Ok_inj in Hs. subst stats. repeat split.
  - destruct (column_stat table_name col db) as [[[s|e] d1] t1] eqn:E1;
      [|rewrite (bind_raise _ _ _ _ _ _ E1) in H; discriminate H].
    rewrite (bind_ok _ _ _ _ _ _ E1) in H.
    destruct (stats_loop table_name rest d1) as [[[more|e] d2] t2] eqn:E2;
      [|rewrite (bind_raise _ _ _ _ _ _ E2) in H; discriminate H].
    rewrite (bind_ok _ _ _ _ _ _ E2) in H.
    unfold ret, outcome, final, trace in H. cbn [fst snd] in H.
    apply run_inv in H as (Hs & _ & <-).
    unfold outcome in Hs. cbn [fst] in Hs. apply Ok_inj in Hs. subst stats.
    destruct (column_stat_ok _ _ _ _ _ _ E1) as (Hq & Hc & Ht & Hk).
    destruct (IH _ _ _ _ E2) as (Hq' & Hc' & Ht' & Hk').
    unfold trace. cbn [snd]. rewrite app_nil_r, statements_app, Hq, Hq'.
    cbn [map]. rewrite Hc, Hc', Ht, Ht', Hk, Hk'. repeat split.
Qed.

Lemma statistics_body_ok
        (table_name : string) (db db' : DB) (text : string) (t : list event) :
  statistics_body table_name db = (Ok text, db', t) ->
  text = not_found table_name
  \/ exists fields columns count stats,
      In (EvExecute (describe_stmt table_name) [] (Result fields columns)) t
      /\ statements t
         = exists_stmt :: count_stmt table_name :: describe_stmt table_name
             :: map (fun col => stat_stmt (column_category col)
                                          (py_str (nth 0 col VNone))
                                          table_name) columns
      /\ text = statistics_report table_name count stats
      /\ map stat_column stats = map (fun col => nth 0 col VNone) columns
      /\ map stat_type stats = map (fun col => nth 1 col VNone) columns
      /\ map stat_category stats = map column_category columns.
Proof.
  intros H. unfold statistics_body in H.
  destruct (db_acquire db) as [e|] eqn:Hacq;
    [rewrite (with_connection_refused _ _ _ Hacq) in H; discriminate H|].
  rewrite (with_connection_run _ _ Hacq) in H.
  apply run_inv in H as (Hout & _ & <-). unfold outcome in Hout.
  cbn [fst] in Hout.
  rewrite bind_execute in *.
  destruct (db_execute db exists_stmt [table_name]) as [[f found|e] d1];
    [|discriminate Hout].
  unfold outcome in Hout. cbn [fst] in Hout.
  destruct (fetchone found) as [[|v row]|] eqn:Hfound;
    [left; unfold ret in Hout; cbn [fst] in Hout; now apply Ok_inj in Hout
    | | left; unfold ret in Hout; cbn [fst] in Hout; now apply Ok_inj in Hout].
  right.
  rewrite bind_execute in *.
  destruct (db_execute d1 (count_stmt table_name) []) as [[f1 counted|e] d2];
    [|discriminate Hout].
  unfold outcome in Hout. cbn [fst] in Hout.
  rewrite bind_execute in *.
  destruct (db_execute d2 (describe_stmt table_name) [])
    as [[fields columns|e] d3]; [|discriminate Hout].
  unfold outcome in Hout. cbn [fst] in Hout. unfold fetchall in *.
  destruct (stats_loop table_name columns d3) as [[[stats|e] d4] t4] eqn:E;
    [|rewrite (bind_raise _ _ _ _ _ _ E) in *; discriminate Hout].
  rewrite (bind_ok _ _ _ _ _ _ E) in *.
  unfold outcome in Hout. cbn [fst] in Hout.
  destruct (subscript_opt (fetchone counted) 0) as [c|e] eqn:Ec;
    [|rewrite bind_lift_raise in *; discriminate Hout].
  rewrite bind_lift_ok in *. unfold ret in *. cbn [fst] in Hout.
  apply Ok_inj in Hout. subst text.
  destruct (stats_loop_ok _ _ _ _ _ _ E) as (Hq & Hc & Ht & Hk).
  exists fields, columns, c, stats.
  unfold trace, outcome, final. cbn [fst snd].
  repeat split; try assumption.
  - right. right. right. now left.
  - cbn [statements app]. rewrite !statements_app, Hq. cbn [statements].
    now rewrite !app_nil_r.
Qed.



(* ------------------------------------------------------------------ *)
(** *** Further properties: what the tools answer *)

Lemma render_results_forms (results : list dict) :
  render_results results = Ok NO_ROWS
  \/ (exists e, render_results results = Raise e)
  \/ exists table, render_results results
                   = Ok (query_table (length results) table).
Proof.
  destruct results as [|first rest]; [now left|].
  unfold render_results.
  destruct (append_rows _ _ _) as [table|e]; cbn [rbind].
  - right. right. now exists table.
  - right. left. now exists e.
Qed.

(** Every answer of the two tools has one of a few forms, and the forms
    cannot be taken for one another: [query_data] answers with the
    rejection, the no-rows message, an error text or a table under its
    title; [table_statistics] with the not-found message, an error text or
    a report.  A caller can always tell a result from an error by how the
    text begins. *)
Theorem tool_answers_are_told_apart :
  (forall sql limit db,
      outcome (query_data sql limit db) = Ok REJECTED
      \/ outcome (query_data sql limit db) = Ok NO_ROWS
      \/ (exists e, outcome (query_data sql limit db) = Ok (query_error e))
      \/ exists n table,
          outcome (query_data sql limit db) = Ok (query_table n table))
  /\ (forall table_name db,
         outcome (table_statistics table_name db) = Ok (not_found table_name)
         \/ (exists e, outcome (table_statistics table_name db)
                       = Ok (statistics_error e))
         \/ exists count stats,
             outcome (table_statistics table_name db)
             = Ok (statistics_report table_name count stats))
  /\ (forall e n table,
         query_error e <> REJECTED /\ query_error e <> NO_ROWS
         /\ query_error e <> query_table n table
         /\ REJECTED <> NO_ROWS /\ REJECTED <> query_table n table
         /\ NO_ROWS <> query_table n table)
  /\ (forall e name name' count stats,
         statistics_error e <> not_found name
         /\ statistics_error e <> statistics_report name' count stats
         /\ not_found name <> statistics_report name' count stats).
Proof.
  repeat apply conj.
  - intros sql limit db.
    destruct (is_select (strip sql)) eqn:Hsel;
      [|rewrite (query_data_rejected _ _ _ Hsel); now left].
    rewrite (query_data_body _ _ _ Hsel). unfold outcome at 1 3 5 7.
    cbn [fst]. unfold query_body.
    destruct (db_acquire db) as [e|] eqn:Hacq.
    { rewrite (with_connection_refused _ _ _ Hacq). right. right. left.
      now exists e. }
    rewrite (with_connection_run _ _ Hacq). unfold outcome at 1 3 5 7.
    cbn [fst]. unfold bind, cursor_execute.
    destruct (db_execute db (add_limit (strip sql) limit) [])
      as [[fields rows|e] d1]; [|right; right; left; now exists e].
    unfold lift, outcome. cbn [fst].
    destruct (render_results_forms (map (dict_zip fields) (fetchall rows)))
      as [->|[[e ->]|[table ->]]].
    + right. now left.
    + right. right. left. now exists e.
    + right. right. right. eauto.
  - intros table_name db. rewrite table_statistics_body.
    unfold outcome at 1 3 5. cbn [fst].
    destruct (statistics_body table_name db) as [[[text|e] d] t] eqn:E;
      unfold outcome; cbn [fst].
    + destruct (statistics_body_ok _ _ _ _ _ E)
        as [->|(fields & columns & c & stats & _ & _ & -> & _)].
      * now left.
      * right. right. eauto.
    + right. left. now exists e.
  - unfold query_error, REJECTED, NO_ROWS, query_table. cbn [append].
    repeat split; discriminate.
  - unfold statistics_error, not_found, statistics_report. cbn [append].
    repeat split; discriminate.
Qed.

(* ------------------------------------------------------------------ *)
(** *** The texts the handlers build, spelled out *)

Lemma fk_stmt_text (table_name : string) :
  fk_stmt table_name
  = NL ++ "                    SELECT " ++ NL
    ++ "                        TABLE_NAME as table_name," ++ NL
    ++ "                        COLUMN_NAME as column_name," ++ NL
    ++ "                        CONSTRAINT_NAME as constraint_name," ++ NL
    ++ "                        REFERENCED_TABLE_NAME as referenced_table_name,"
    ++ NL
    ++ "                        REFERENCED_COLUMN_NAME as referenced_column_name"
    ++ NL
    ++ "                    FROM" ++ NL
    ++ "                        INFORMATION_SCHEMA.KEY_COLUMN_USAGE" ++ NL
    ++ "                    WHERE" ++ NL
    ++ "                        REFERENCED_TABLE_SCHEMA = '"
    ++ (match DB_NAME with Some s => s | None => "None" end)
    ++ "' AND" ++ NL
    ++ "                        TABLE_NAME = '" ++ table_name ++ "'" ++ NL
    ++ "                ".
Proof.
  unfold fk_stmt, line, py_str_opt. rewrite !append_assoc. reflexivity.
Qed.

Lemma numeric_stmt_text (col_name table_name : string) :
  numeric_stmt col_name table_name
  = NL ++ "                            SELECT " ++ NL
    ++ "                                MIN(`" ++ col_name ++ "`) as min_val,"
    ++ NL
    ++ "                                MAX(`" ++ col_name ++ "`) as max_val,"
    ++ NL
    ++ "                                AVG(`" ++ col_name ++ "`) as avg_val,"
    ++ NL
    ++ "                                STD(`" ++ col_name ++ "`) as std_val"
    ++ NL
    ++ "                            FROM `" ++ table_name ++ "`" ++ NL
    ++ "                        ".
Proof.
  unfold numeric_stmt, line. rewrite !append_assoc. reflexivity.
Qed.

Lemma text_stmt_text (col_name table_name : string) :
  text_stmt col_name table_name
  = NL ++ "                            SELECT " ++ NL
    ++ "                                COUNT(DISTINCT `" ++ col_name
    ++ "`) as unique_count," ++ NL
    ++ "                                AVG(LENGTH(`" ++ col_name
    ++ "`)) as avg_length" ++ NL
    ++ "                            FROM `" ++ table_name ++ "`" ++ NL
    ++ "                        ".
Proof.
  unfold text_stmt, line. rewrite !append_assoc. reflexivity.
Qed.

Lemma other_stmt_text (col_name table_name : string) :
  other_stmt col_name table_name
  = NL ++ "                            SELECT COUNT(DISTINCT `" ++ col_name
    ++ "`) as unique_count" ++ NL
    ++ "                            FROM `" ++ table_name ++ "`" ++ NL
    ++ "                        ".
Proof.
  unfold other_stmt, line. rewrite !append_assoc. reflexivity.
Qed.


(* ------------------------------------------------------------------ *)
(** *** [get_relationships] against the key usages of the catalog *)









(* ------------------------------------------------------------------ *)
(** *** Errors at the boundary of the two tools *)

(** A loop over rows stops at the first row that raises. *)
Lemma append_rows_raise {A} (f : A -> result string) (pre : list A) (bad : A)
      (post : list A) (e : exn) :
  Forall (fun x => exists l, f x = Ok l) pre ->
  f bad = Raise e ->
  forall acc, append_rows f (pre ++ bad :: post) acc = Raise e.
Proof.
  intros Hpre Hbad.
  induction Hpre as [|x pre (l & Hl) _ IH]; intros acc; cbn [app append_rows].
  - now rewrite Hbad.
  - rewrite Hl. cbn [rbind]. apply IH.
Qed.

Lemma format_cells_raise (row : dict) (pre : list string) (col : string)
      (post : list string) (e : exn) :
  Forall (fun c => exists v text, dict_get row c = Some v
                                  /\ format_cell v = Ok text) pre ->
  (cell <~ getitem row col ;; format_cell cell)%result = Raise e ->
  format_cells row (pre ++ col :: post) = Raise e.
Proof.
  intros Hpre Hbad.
  induction Hpre as [|c pre (v & text & Hv & Ht) _ IH];
    cbn [app format_cells].
  - destruct (getitem row col) as [cell|e']; cbn [rbind] in *;
      [now rewrite Hbad | congruence].
  - unfold getitem at 1. rewrite Hv. cbn [rbind]. rewrite Ht. cbn [rbind].
    now rewrite IH.
Qed.

Lemma render_results_raise (pre : list dict) (bad : dict) (post : list dict)
      (e : exn) :
  Forall (fun r => exists l, format_row (keys (hd bad pre)) r = Ok l) pre ->
  format_row (keys (hd bad pre)) bad = Raise e ->
  render_results (pre ++ bad :: post) = Raise e.
Proof.
  intros Hpre Hbad. unfold render_results.
  destruct pre as [|p pre]; cbn [app hd] in *.
  - cbn [append_rows]. now rewrite Hbad.
  - change (p :: (pre ++ bad :: post)%list)
      with ((p :: pre) ++ bad :: post)%list.
    now rewrite (append_rows_raise _ _ _ _ _ Hpre Hbad).
Qed.

(** The loop over the columns stops at the first column whose statistic
    raises. *)
Lemma stats_loop_raise (table_name : string) (col : list value)
      (post : list (list value)) (e : exn) (pre : list (list value)) :
  forall db d4 d5 stats t t',
    stats_loop table_name pre db = (Ok stats, d4, t) ->
    column_stat table_name col d4 = (Raise e, d5, t') ->
    stats_loop table_name (pre ++ col :: post) db
    = (Raise e, d5, (t ++ t')%list).
Proof.
  induction pre as [|c pre IH]; intros db d4 d5 stats t t' Hpre Hcol;
    cbn [app stats_loop] in *.
  - unfold ret in Hpre. apply run_inv in Hpre as (_ & <- & <-).
    unfold final, trace. cbn [fst snd app].
    now rewrite (bind_raise _ _ _ _ _ _ Hcol).
  - destruct (column_stat table_name c db) as [[[s|e1] d1] t1] eqn:E1;
      [|rewrite (bind_raise _ _ _ _ _ _ E1) in Hpre; discriminate Hpre].
    rewrite (bind_ok _ _ _ _ _ _ E1) in Hpre.
    rewrite (bind_ok _ _ _ _ _ _ E1).
    destruct (stats_loop table_name pre d1) as [[[more|e2] d2] t2] eqn:E2;
      [|rewrite (bind_raise _ _ _ _ _ _ E2) in Hpre; discriminate Hpre].
    rewrite (bind_ok _ _ _ _ _ _ E2) in Hpre.
    unfold ret, outcome, final, trace in Hpre. cbn [fst snd] in Hpre.
    apply run_inv in Hpre as (_ & <- & <-).
    unfold final, trace. cbn [fst snd].
    rewrite (bind_raise _ _ _ _ _ _ (IH _ _ _ _ _ _ E2 Hcol)).
    unfold outcome, final, trace. cbn [fst snd].
    now rewrite app_nil_r, app_assoc.
Qed.

(** C6. [query_data] and [table_statistics] never raise: whatever the
    pool, the server and the library functions do, they return a text.
    Whatever exception the block under [try] raises, the text returned is
    the error prefix followed by [str(e)] and nothing else: so it is when
    the pool refuses a connection, when the server rejects a statement (the
    existence check, the count, the description or the statistic statement
    of any one column), when [json.dumps] fails on a cell or a row lacks a
    column, when a row of an answer is too short or a rounding fails.  For
    [query_data] the text is then the error alone though the rows before
    the failing one had been rendered; for [table_statistics] it is the
    error alone though the columns before the failing one had their
    statistics.  An answer that is a table has one line for every row of
    the result set, and an answer that is a report was made with no
    statement rejected and holds one entry for every column of the
    description.  A connection that was handed out is given back. *)
Theorem errors_become_text :
  (forall sql limit db,
      exists text, outcome (query_data sql limit db) = Ok text)
  /\ (forall table_name db,
         exists text, outcome (table_statistics table_name db) = Ok text)
  /\ (forall sql limit db q args cls msg,
         In (EvExecute q args (Failure (Exn cls msg)))
            (trace (query_data sql limit db)) ->
         outcome (query_data sql limit db) = Ok ("查询执行错误: " ++ msg))
  /\ (forall table_name db q args cls msg,
         In (EvExecute q args (Failure (Exn cls msg)))
            (trace (table_statistics table_name db)) ->
         outcome (table_statistics table_name db)
         = Ok ("获取统计信息错误: " ++ msg))
  /\ (forall sql limit db cls msg,
         is_select (strip sql) = true ->
         db_acquire db = Some (Exn cls msg) ->
         query_data sql limit db
         = (Ok ("查询执行错误: " ++ msg), db, [EvRefused (Exn cls msg)]))
  /\ (forall table_name db cls msg,
         db_acquire db = Some (Exn cls msg) ->
         table_statistics table_name db
         = (Ok ("获取统计信息错误: " ++ msg), db, [EvRefused (Exn cls msg)]))
  /\ (forall sql limit db,
         is_select (strip sql) = true ->
         db_acquire db = None ->
         exists t, trace (query_data sql limit db)
                   = (EvAcquire :: t ++ [EvRelease])%list)
  /\ (forall table_name db,
         db_acquire db = None ->
         exists t, trace (table_statistics table_name db)
                   = (EvAcquire :: t ++ [EvRelease])%list)
  /\ (forall sql limit db cls msg,
         is_select (strip sql) = true ->
         outcome (query_body (add_limit (strip sql) limit) db)
         = Raise (Exn cls msg) ->
         outcome (query_data sql limit db) = Ok ("查询执行错误: " ++ msg))
  /\ (forall table_name db cls msg,
         outcome (statistics_body table_name db) = Raise (Exn cls msg) ->
         outcome (table_statistics table_name db)
         = Ok ("获取统计信息错误: " ++ msg))
  /\ (forall sql limit db db1 fields pre bad post cls msg,
         is_select (strip sql) = true ->
         db_acquire db = None ->
         db_execute db (add_limit (strip sql) limit) []
         = (Result fields (pre ++ bad :: post), db1) ->
         let columns := keys (dict_zip fields (hd bad pre)) in
         Forall (fun r => exists l,
                     format_row columns (dict_zip fields r) = Ok l) pre ->
         format_row columns (dict_zip fields bad) = Raise (Exn cls msg) ->
         query_data sql limit db
         = (Ok ("查询执行错误: " ++ msg), db1,
            [EvAcquire;
             EvExecute (add_limit (strip sql) limit) []
                       (Result fields (pre ++ bad :: post));
             EvRelease]))
  /\ (forall row pre col post,
         Forall (fun c => exists v text, dict_get row c = Some v
                                         /\ format_cell v = Ok text) pre ->
         (dict_get row col = None ->
          format_row (pre ++ col :: post) row
          = Raise (Exn "KeyError" (py_repr (VStr col))))
         /\ (forall v e,
                dict_get row col = Some v ->
                is_structured v = true ->
                json_dumps v = Raise e ->
                format_row (pre ++ col :: post) row = Raise e))
  /\ (forall table_name db d1 d2 d3 d4 d5 f0 f1 f2 v row found counted
             pre col post stats t t' cls msg,
         db_acquire db = None ->
         db_execute db "SHOW TABLES LIKE %s" [table_name]
         = (Result f0 ((v :: row) :: found), d1) ->
         db_execute d1 ("SELECT COUNT(*) as count FROM `" ++ table_name ++ "`")
                    []
         = (Result f1 counted, d2) ->
         db_execute d2 ("DESCRIBE `" ++ table_name ++ "`") []
         = (Result f2 (pre ++ col :: post), d3) ->
         stats_loop table_name pre d3 = (Ok stats, d4, t) ->
         column_stat table_name col d4 = (Raise (Exn cls msg), d5, t') ->
         table_statistics table_name db
         = (Ok ("获取统计信息错误: " ++ msg), d5,
            (EvAcquire
               :: EvExecute "SHOW TABLES LIKE %s" [table_name]
                            (Result f0 ((v :: row) :: found))
               :: EvExecute ("SELECT COUNT(*) as count FROM `" ++ table_name
                             ++ "`") [] (Result f1 counted)
               :: EvExecute ("DESCRIBE `" ++ table_name ++ "`") []
                            (Result f2 (pre ++ col :: post))
               :: t ++ t' ++ [EvRelease])%list))
  /\ (forall table_name name type rest db d1 f mn mx a tail more cls msg,
         classify type = Numeric ->
         db_execute
           db
           (NL ++ "                            SELECT " ++ NL
            ++ "                                MIN(`" ++ name
            ++ "`) as min_val," ++ NL
            ++ "                                MAX(`" ++ name
            ++ "`) as max_val," ++ NL
            ++ "                                AVG(`" ++ name
            ++ "`) as avg_val," ++ NL
            ++ "                                STD(`" ++ name
            ++ "`) as std_val" ++ NL
            ++ "                            FROM `" ++ table_name ++ "`" ++ NL
            ++ "                        ") []
         = (Result f ((mn :: mx :: a :: tail) :: more), d1) ->
         truthy a = true ->
         round2 a = Raise (Exn cls msg) ->
         outcome (column_stat table_name (VStr name :: VStr type :: rest) db)
         = Raise (Exn cls msg))
  /\ (forall table_name name db,
         column_stat table_name [] db
         = (Raise (Exn "IndexError" "tuple index out of range"), db, [])
         /\ column_stat table_name [name] db
            = (Raise (Exn "IndexError" "tuple index out of range"), db, []))
  /\ (forall table_name db,
         outcome (table_statistics table_name db)
         = Ok ("错误: 表 '" ++ table_name ++ "' 不存在")
         \/ (exists cls msg,
                outcome (statistics_body table_name db) = Raise (Exn cls msg)
                /\ outcome (table_statistics table_name db)
                   = Ok ("获取统计信息错误: " ++ msg))
         \/ exists fields columns count stats,
             In (EvExecute ("DESCRIBE `" ++ table_name ++ "`") []
                           (Result fields columns))
                (trace (table_statistics table_name db))
             /\ (forall q args e,
                    ~ In (EvExecute q args (Failure e))
                         (trace (table_statistics table_name db)))
             /\ map stat_column stats
                = map (fun col => nth 0 col VNone) columns
             /\ outcome (table_statistics table_name db)
                = Ok ("# 表 '" ++ table_name ++ "' 统计信息" ++ NL ++ NL
                      ++ "总行数: " ++ py_str count ++ NL ++ NL
                      ++ numeric_section stats ++ text_section stats
                      ++ other_section stats))
  /\ (forall sql limit db,
         outcome (query_data sql limit db)
         = Ok "错误: 只支持SELECT查询以保证数据库安全"
         \/ outcome (query_data sql limit db)
            = Ok "查询执行成功，但没有返回数据。"
         \/ (exists cls msg,
                outcome (query_body (add_limit (strip sql) limit) db)
                = Raise (Exn cls msg)
                /\ outcome (query_data sql limit db)
                   = Ok ("查询执行错误: " ++ msg))
         \/ exists fields row rows lines,
             let results := map (dict_zip fields) (row :: rows) in
             let columns := keys (dict_zip fields row) in
             In (EvExecute (add_limit (strip sql) limit) []
                           (Result fields (row :: rows)))
                (trace (query_data sql limit db))
             /\ Forall2 (fun r l => format_row columns r = Ok l) results lines
             /\ outcome (query_data sql limit db)
                = Ok ("查询结果 (" ++ dec_of_nat (length results) ++ " 行):"
                      ++ NL ++ NL
                      ++ ("| " ++ join " | " columns ++ " |" ++ NL
                          ++ "| " ++ join " | " (map (fun _ => "---") columns)
                          ++ " |" ++ NL)
                      ++ String.concat "" lines)).
Proof.
  repeat apply conj.
  - intros sql limit db.
    destruct (is_select (strip sql)) eqn:Hsel.
    + rewrite (query_data_body _ _ _ Hsel). unfold outcome at 1. cbn [fst].
      destruct (outcome _); eauto.
    + rewrite (query_data_rejected _ _ _ Hsel). now exists REJECTED.
  - intros table_name db. rewrite table_statistics_body.
    unfold outcome at 1. cbn [fst]. destruct (outcome _); eauto.
  - intros sql limit db q args cls msg.
    destruct (is_select (strip sql)) eqn:Hsel.
    + rewrite (query_data_body _ _ _ Hsel).
      unfold trace at 1, outcome at 1. cbn [fst snd]. intros Hin.
      now rewrite (fail_fast_query_body _ _ _ _ _ Hin).
    + rewrite (query_data_rejected _ _ _ Hsel). intros [].
  - intros table_name db q args cls msg. rewrite table_statistics_body.
    unfold trace at 1, outcome at 1. cbn [fst snd]. intros Hin.
    now rewrite (fail_fast_statistics_body _ _ _ _ _ Hin).
  - intros sql limit db cls msg Hsel Hacq.
    rewrite (query_data_body _ _ _ Hsel).
    unfold query_body. now rewrite (with_connection_refused _ _ _ Hacq).
  - intros table_name db cls msg Hacq. rewrite table_statistics_body.
    unfold statistics_body. now rewrite (with_connection_refused _ _ _ Hacq).
  - intros sql limit db Hsel Hacq. rewrite (query_data_body _ _ _ Hsel).
    unfold trace at 1. cbn [snd]. unfold query_body.
    rewrite (with_connection_released _ _ Hacq). eauto.
  - intros table_name db Hacq. rewrite table_statistics_body.
    unfold trace at 1. cbn [snd]. unfold statistics_body.
    rewrite (with_connection_released _ _ Hacq). eauto.
  - intros sql limit db cls msg Hsel Hbody.
    rewrite (query_data_body _ _ _ Hsel). unfold outcome at 1. cbn [fst].
    now rewrite Hbody.
  - intros table_name db cls msg Hbody. rewrite table_statistics_body.
    unfold outcome at 1. cbn [fst]. now rewrite Hbody.
  - intros sql limit db db1 fields pre bad post cls msg Hsel Hacq Hex columns
           Hpre Hbad.
    rewrite (query_data_run _ _ _ _ _ _ Hsel Hacq Hex).
    rewrite map_app. cbn [map].
    assert (Hhd : hd (dict_zip fields bad) (map (dict_zip fields) pre)
                  = dict_zip fields (hd bad pre)) by now destruct pre.
    rewrite (render_results_raise _ _ _ (Exn cls msg)); [reflexivity | |].
    + rewrite Hhd. apply Forall_map. exact Hpre.
    + rewrite Hhd. exact Hbad.
  - intros row pre col post Hpre. split.
    + intros Hnone. unfold format_row.
      rewrite (format_cells_raise _ _ _ _
                 (Exn "KeyError" (py_repr (VStr col))) Hpre);
        [reflexivity|].
      unfold getitem. now rewrite Hnone.
    + intros v e Hv Hs Hj. unfold format_row.
      rewrite (format_cells_raise _ _ _ _ e Hpre); [reflexivity|].
      unfold getitem. rewrite Hv. cbn [rbind]. unfold format_cell.
      destruct v; try discriminate Hs; now rewrite Hj.
  - intros table_name db d1 d2 d3 d4 d5 f0 f1 f2 v row found counted pre col
           post stats t t' cls msg Hacq Hcheck Hcount Hdesc Hpre Hcol.
    rewrite table_statistics_body.
    assert (Hbody : statistics_body table_name db
                    = (Raise (Exn cls msg), d5,
                       (EvAcquire
                          :: EvExecute "SHOW TABLES LIKE %s" [table_name]
                                       (Result f0 ((v :: row) :: found))
                          :: EvExecute ("SELECT COUNT(*) as count FROM `"
                                        ++ table_name ++ "`") []
                                       (Result f1 counted)
                          :: EvExecute ("DESCRIBE `" ++ table_name ++ "`") []
                                       (Result f2 (pre ++ col :: post))
                          :: t ++ t' ++ [EvRelease])%list)).
    { unfold statistics_body. rewrite (with_connection_run _ _ Hacq).
      rewrite bind_execute. unfold exists_stmt. rewrite Hcheck.
      cbn [fetchone hd_error].
      rewrite bind_execute. unfold count_stmt. rewrite Hcount.
      rewrite bind_execute. unfold describe_stmt. rewrite Hdesc.
      unfold fetchall.
      rewrite (bind_raise _ _ _ _ _ _
                 (stats_loop_raise _ _ post _ _ _ _ _ _ _ _ Hpre Hcol)).
      unfold outcome, final, trace. cbn [fst snd app].
      now rewrite <- app_assoc. }
    now rewrite Hbody.
  - intros table_name name type rest db d1 f mn mx a tail more cls msg Hc Hex
           Ht Hr.
    unfold column_stat. pure_steps. unfold classify in Hc. rewrite Hc.
    rewrite bind_execute, numeric_stmt_text. cbn [py_str]. rewrite Hex.
    unfold outcome, lift. cbn [fst fetchone hd_error].
    unfold numeric_entry. cbn [subscript_opt subscript nth_error rbind].
    unfold rounded_or_none. now rewrite Ht, Hr.
  - intros table_name name db. split; reflexivity.
  - intros table_name db. rewrite table_statistics_body.
    destruct (statistics_body table_name db) as [[[text|[cls msg]] d] t]
      eqn:E; unfold outcome, final, trace; cbn [fst snd].
    + destruct (statistics_body_ok _ _ _ _ _ E)
        as [->|(fields & columns & c & stats & Hin & _ & -> & Hc & _)].
      * now left.
      * right. right. exists fields, columns, c, stats.
        split; [exact Hin|]. split; [|split; [exact Hc | reflexivity]].
        intros q args e Hf.
        pose proof (fail_fast_statistics_body table_name db q args e) as Hff.
        rewrite E in Hff. unfold outcome, trace in Hff. cbn [fst snd] in Hff.
        specialize (Hff Hf). discriminate Hff.
    + right. left. exists cls, msg. split; reflexivity.
  - intros sql limit db.
    destruct (is_select (strip sql)) eqn:Hsel;
      [|rewrite (query_data_rejected _ _ _ Hsel); now left].
    right. rewrite (query_data_body _ _ _ Hsel).
    destruct (query_body (add_limit (strip sql) limit) db)
      as [[[text|[cls msg]] d] t] eqn:E;
      unfold outcome, final, trace; cbn [fst snd];
      [|right; left; exists cls, msg; split; reflexivity].
    unfold query_body in E.
    destruct (db_acquire db) as [e|] eqn:Hacq;
      [rewrite (with_connection_refused _ _ _ Hacq) in E; discriminate E|].
    rewrite (with_connection_run _ _ Hacq) in E.
    apply run_inv in E as (Hout & _ & <-).
    unfold bind, cursor_execute in *.
    destruct (db_execute db (add_limit (strip sql) limit) [])
      as [[fields rows|e] d1]; [|discriminate Hout].
    unfold lift, outcome, trace, fetchall in *. cbn [fst snd app] in *.
    destruct rows as [|row rows].
    + left. now rewrite <- Hout.
    + right. right. unfold render_results in Hout. cbn [map] in Hout.
      destruct (append_rows _ _ _) as [table|e] eqn:Ea in Hout;
        cbn [rbind] in Hout; [|discriminate Hout].
      apply append_rows_inv in Ea as (lines & HF & ->).
      apply Ok_inj in Hout. subst text.
      exists fields, row, rows, lines. cbv zeta. split; [|split].
      * right. now left.
      * exact HF.
      * cbn [map]. now rewrite !append_assoc.
Qed.

(* ------------------------------------------------------------------ *)
(** *** [table_statistics]: the existence check is a pattern match *)

Lemma stat_stmt_text (c : category) (col_name table_name : string) :
  stat_stmt c col_name table_name
  = match c with
    | Numeric =>
      NL ++ "                            SELECT " ++ NL
      ++ "                                MIN(`" ++ col_name ++ "`) as min_val,"
      ++ NL
      ++ "                                MAX(`" ++ col_name ++ "`) as max_val,"
      ++ NL
      ++ "                                AVG(`" ++ col_name ++ "`) as avg_val,"
      ++ NL
      ++ "                                STD(`" ++ col_name ++ "`) as std_val"
      ++ NL
      ++ "                            FROM `" ++ table_name ++ "`" ++ NL
      ++ "                        "
    | Text =>
      NL ++ "                            SELECT " ++ NL
      ++ "                                COUNT(DISTINCT `" ++ col_name
      ++ "`) as unique_count," ++ NL
      ++ "                                AVG(LENGTH(`" ++ col_name
      ++ "`)) as avg_length" ++ NL
      ++ "                            FROM `" ++ table_name ++ "`" ++ NL
      ++ "                        "
    | Other =>
      NL ++ "                            SELECT COUNT(DISTINCT `" ++ col_name
      ++ "`) as unique_count" ++ NL
      ++ "                            FROM `" ++ table_name ++ "`" ++ NL
      ++ "                        "
    end.
Proof.
  destruct c;
    [apply numeric_stmt_text | apply text_stmt_text | apply other_stmt_text].
Qed.

Lemma about_table_text (table_name q : string) :
  about_table table_name q ->
  q = "SHOW TABLES LIKE %s"
  \/ q = "SELECT COUNT(*) as count FROM `" ++ table_name ++ "`"
  \/ q = "DESCRIBE `" ++ table_name ++ "`"
  \/ exists col_name,
      q = NL ++ "                            SELECT " ++ NL
          ++ "                                MIN(`" ++ col_name ++ "`) as min_val,"
          ++ NL
          ++ "                                MAX(`" ++ col_name ++ "`) as max_val,"
          ++ NL
          ++ "                                AVG(`" ++ col_name ++ "`) as avg_val,"
          ++ NL
          ++ "                                STD(`" ++ col_name ++ "`) as std_val"
          ++ NL
          ++ "                            FROM `" ++ table_name ++ "`" ++ NL
          ++ "                        "
      \/ q = NL ++ "                            SELECT " ++ NL
             ++ "                                COUNT(DISTINCT `" ++ col_name
             ++ "`) as unique_count," ++ NL
             ++ "                                AVG(LENGTH(`" ++ col_name
             ++ "`)) as avg_length" ++ NL
             ++ "                            FROM `" ++ table_name ++ "`" ++ NL
             ++ "                        "
      \/ q = NL ++ "                            SELECT COUNT(DISTINCT `" ++ col_name
             ++ "`) as unique_count" ++ NL
             ++ "                            FROM `" ++ table_name ++ "`" ++ NL
             ++ "                        ".
Proof.
  intros [->|[->|[->|(c & col_name & ->)]]];
    [now left | right; now left | right; right; now left |].
  right. right. right. exists col_name. rewrite stat_stmt_text.
  destruct c; [now left | right; now left | right; now right].
Qed.

(** Once the check is answered with a row, a block that completes has
    gone through the count, the description and every column. *)
Lemma statistics_body_passed
      (table_name : string) (db db1 db' : DB) (fields : list string)
      (row : list value) (rows : list (list value)) (text : string)
      (t : list event) :
  db_acquire db = None ->
  db_execute db exists_stmt [table_name] = (Result fields (row :: rows), db1) ->
  row <> [] ->
  statistics_body table_name db = (Ok text, db', t) ->
  exists fields' columns count stats,
    In (EvExecute (describe_stmt table_name) [] (Result fields' columns)) t
    /\ statements t
       = exists_stmt :: count_stmt table_name :: describe_stmt table_name
           :: map (fun col => stat_stmt (column_category col)
                                        (py_str (nth 0 col VNone))
                                        table_name) columns
    /\ text = statistics_report table_name count stats.
Proof.
  intros Hacq Hex Hrow H.
  destruct (statistics_body_ok _ _ _ _ _ H)
    as [->|(fields' & columns & c & stats & Hin & Hst & -> & _)];
    [|now exists fields', columns, c, stats].
  exfalso. unfold statistics_body in H.
  rewrite (with_connection_run _ _ Hacq) in H.
  apply run_inv in H as (Hout & _ & _). unfold outcome in Hout.
  cbn [fst] in Hout. rewrite bind_execute, Hex in Hout.
  cbn [fst fetchone hd_error] in Hout.
  destruct row as [|v row]; [congruence|].
  rewrite bind_execute in Hout.
  destruct (db_execute db1 (count_stmt table_name) []) as [[f1 counted|e] d2];
    [|discriminate Hout].
  unfold outcome in Hout. cbn [fst] in Hout.
  rewrite bind_execute in Hout.
  destruct (db_execute d2 (describe_stmt table_name) [])
    as [[f2 columns|e] d3]; [|discriminate Hout].
  unfold outcome in Hout. cbn [fst] in Hout. unfold fetchall in Hout.
  destruct (stats_loop table_name columns d3) as [[[stats|e] d4] t4] eqn:E;
    [|rewrite (bind_raise _ _ _ _ _ _ E) in Hout; discriminate Hout].
  rewrite (bind_ok _ _ _ _ _ _ E) in Hout.
  unfold outcome in Hout. cbn [fst] in Hout.
  destruct (subscript_opt (fetchone counted) 0) as [c|e];
    [|rewrite bind_lift_raise in Hout; discriminate Hout].
  rewrite bind_lift_ok in Hout. unfold ret in Hout. cbn [fst] in Hout.
  apply Ok_inj in Hout. revert Hout.
  unfold statistics_report, not_found. cbn [append]. discriminate.
Qed.

(** C9. The existence check of [table_statistics] hands the caller's text
    to the server as a [LIKE] pattern.  Whenever the server answers that
    pattern with a row (whatever table the row names, so also when the text
    has [%] or [_] and names no table itself), the check is passed: the
    answer is never the not-found message; the next statement is the count
    on the caller's text between backquotes; every statement sent is the
    check, that count, the description of the caller's text or an aggregate
    selection from the caller's text, all with the text between backquotes
    as it was given, never the table the pattern matched; and a report,
    when the server lets the run reach it, is titled with the caller's text
    and was computed by one such selection for each column the server
    described under that text. *)
Theorem existence_check_is_pattern_match
        (table_name : string) (db db1 : DB) (fields : list string)
        (row : list value) (rows : list (list value)) :
  let count_text := "SELECT COUNT(*) as count FROM `" ++ table_name ++ "`" in
  let describe_text := "DESCRIBE `" ++ table_name ++ "`" in
  let numeric_text := fun col_name : string =>
    NL ++ "                            SELECT " ++ NL
    ++ "                                MIN(`" ++ col_name ++ "`) as min_val,"
    ++ NL
    ++ "                                MAX(`" ++ col_name ++ "`) as max_val,"
    ++ NL
    ++ "                                AVG(`" ++ col_name ++ "`) as avg_val,"
    ++ NL
    ++ "                                STD(`" ++ col_name ++ "`) as std_val"
    ++ NL
    ++ "                            FROM `" ++ table_name ++ "`" ++ NL
    ++ "                        " in
  let text_text := fun col_name : string =>
    NL ++ "                            SELECT " ++ NL
    ++ "                                COUNT(DISTINCT `" ++ col_name
    ++ "`) as unique_count," ++ NL
    ++ "                                AVG(LENGTH(`" ++ col_name
    ++ "`)) as avg_length" ++ NL
    ++ "                            FROM `" ++ table_name ++ "`" ++ NL
    ++ "                        " in
  let other_text := fun col_name : string =>
    NL ++ "                            SELECT COUNT(DISTINCT `" ++ col_name
    ++ "`) as unique_count" ++ NL
    ++ "                            FROM `" ++ table_name ++ "`" ++ NL
    ++ "                        " in
  db_acquire db = None ->
  db_execute db "SHOW TABLES LIKE %s" [table_name]
  = (Result fields (row :: rows), db1) ->
  row <> [] ->
  (exists r tail,
      trace (table_statistics table_name db)
      = EvAcquire
          :: EvExecute "SHOW TABLES LIKE %s" [table_name]
                       (Result fields (row :: rows))
          :: EvExecute count_text [] r
          :: tail)
  /\ Forall (fun q =>
               q = "SHOW TABLES LIKE %s" \/ q = count_text
               \/ q = describe_text
               \/ exists col_name,
                   q = numeric_text col_name \/ q = text_text col_name
                   \/ q = other_text col_name)
            (statements (trace (table_statistics table_name db)))
  /\ ((exists cls msg,
          outcome (statistics_body table_name db) = Raise (Exn cls msg)
          /\ outcome (table_statistics table_name db)
             = Ok ("获取统计信息错误: " ++ msg))
      \/ exists fields' columns count stats,
          In (EvExecute describe_text [] (Result fields' columns))
             (trace (table_statistics table_name db))
          /\ statements (trace (table_statistics table_name db))
             = "SHOW TABLES LIKE %s" :: count_text :: describe_text
                 :: map (fun col =>
                           match column_category col with
                           | Numeric => numeric_text (py_str (nth 0 col VNone))
                           | Text => text_text (py_str (nth 0 col VNone))
                           | Other => other_text (py_str (nth 0 col VNone))
                           end) columns
          /\ outcome (table_statistics table_name db)
             = Ok ("# 表 '" ++ table_name ++ "' 统计信息" ++ NL ++ NL
                   ++ "总行数: " ++ py_str count ++ NL ++ NL
                   ++ numeric_section stats ++ text_section stats
                   ++ other_section stats))
  /\ outcome (table_statistics table_name db)
     <> Ok ("错误: 表 '" ++ table_name ++ "' 不存在").
Proof.
  intros count_text describe_text numeric_text text_text other_text
         Hacq Hex Hrow.
  assert (Hforms :
            (exists cls msg,
                outcome (statistics_body table_name db) = Raise (Exn cls msg)
                /\ outcome (table_statistics table_name db)
                   = Ok ("获取统计信息错误: " ++ msg))
            \/ exists fields' columns count stats,
                In (EvExecute describe_text [] (Result fields' columns))
                   (trace (table_statistics table_name db))
                /\ statements (trace (table_statistics table_name db))
                   = "SHOW TABLES LIKE %s" :: count_text :: describe_text
                       :: map (fun col =>
                                 match column_category col with
                                 | Numeric =>
                                   numeric_text (py_str (nth 0 col VNone))
                                 | Text => text_text (py_str (nth 0 col VNone))
                                 | Other => other_text (py_str (nth 0 col VNone))
                                 end) columns
                /\ outcome (table_statistics table_name db)
                   = Ok ("# 表 '" ++ table_name ++ "' 统计信息" ++ NL ++ NL
                         ++ "总行数: " ++ py_str count ++ NL ++ NL
                         ++ numeric_section stats ++ text_section stats
                         ++ other_section stats)).
  { rewrite table_statistics_body.
    destruct (statistics_body table_name db) as [[[text|[cls msg]] d] t]
      eqn:E; unfold outcome, final, trace; cbn [fst snd].
    - right.
      destruct (statistics_body_passed _ _ _ _ _ _ _ _ _ Hacq Hex Hrow E)
        as (fields' & columns & c & stats & Hin & Hst & ->).
      exists fields', columns, c, stats. split; [exact Hin|].
      split; [|reflexivity]. rewrite Hst. do 3 f_equal.
      apply map_ext. intros col. apply stat_stmt_text.
    - left. exists cls, msg. split; reflexivity. }
  split; [|split; [|split; [exact Hforms|]]].
  - rewrite table_statistics_body. unfold trace at 1. cbn [snd].
    unfold statistics_body. rewrite (with_connection_released _ _ Hacq).
    rewrite bind_execute. unfold exists_stmt. rewrite Hex.
    unfold trace at 1. cbn [snd fetchone hd_error].
    destruct row as [|v row]; [congruence|].
    rewrite bind_execute. unfold count_stmt.
    destruct (db_execute db1 _ []) as [[f counted|e] db2];
      unfold trace at 1; cbn [snd app]; eauto.
  - rewrite table_statistics_body. unfold trace at 1. cbn [snd].
    apply (Forall_impl _ (about_table_text table_name)).
    apply sends_statistics_body.
  - destruct Hforms as [(cls & msg & _ & ->)|(f & cs & c & st & _ & _ & ->)];
      cbn [append]; discriminate.
Qed.

(* ------------------------------------------------------------------ *)
(** *** The statements of the handlers, spelled out *)

Lemma trace_bind_head {A B} (m : M A) (k : A -> M B) (db : DB) (ev : event)
      (tl : list event) :
  trace (m db) = ev :: tl -> exists tl', trace (bind m k db) = ev :: tl'.
Proof.
  destruct (m db) as [[[a|e] db1] t1] eqn:E; unfold trace at 1; cbn [snd];
    intros ->.
  - rewrite (bind_ok _ _ _ _ _ _ E). unfold trace at 1. cbn [snd app]. eauto.
  - rewrite (bind_raise _ _ _ _ _ _ E). unfold trace. cbn [snd]. eauto.
Qed.

Lemma relations_loop_first (name : value) (rest : list value)
      (tables : list (list value)) (result : string) (has : bool) (db : DB) :
  exists r tl,
    trace (relations_loop ((name :: rest) :: tables) result has db)
    = EvExecute (fk_stmt (py_str name)) [] r :: tl.
Proof.
  cbn [relations_loop]. pure_steps. rewrite bind_execute.
  destruct (db_execute db _ []) as [[f rels|e] d1]; unfold trace at 1;
    cbn [snd]; eauto.
Qed.

(** Apart from [query_data], whose statement is the caller's, the handlers
    send only statements of fixed forms, whatever the server answers:
    [SHOW TABLES]; [DESCRIBE] and [SHOW CREATE TABLE] of the name; the
    selection from the key-column usages for a table; the existence check,
    the count, the [DESCRIBE] and the aggregate selections of
    [table_statistics].  A name goes into its statement as it was given,
    between backquotes or quotes and with nothing escaped: the form of the
    text is fixed, what the server makes of a name that holds a backquote
    or a quote is not. *)
Theorem handlers_send_fixed_statements :
  let schema := match DB_NAME with Some s => s | None => "None" end in
  let key_usage_stmt := fun table_name : string =>
    NL ++ "                    SELECT " ++ NL
    ++ "                        TABLE_NAME as table_name," ++ NL
    ++ "                        COLUMN_NAME as column_name," ++ NL
    ++ "                        CONSTRAINT_NAME as constraint_name," ++ NL
    ++ "                        REFERENCED_TABLE_NAME as referenced_table_name,"
    ++ NL
    ++ "                        REFERENCED_COLUMN_NAME as referenced_column_name"
    ++ NL
    ++ "                    FROM" ++ NL
    ++ "                        INFORMATION_SCHEMA.KEY_COLUMN_USAGE" ++ NL
    ++ "                    WHERE" ++ NL
    ++ "                        REFERENCED_TABLE_SCHEMA = '" ++ schema
    ++ "' AND" ++ NL
    ++ "                        TABLE_NAME = '" ++ table_name ++ "'" ++ NL
    ++ "                " in
  (forall db,
      Forall (fun q => q = "SHOW TABLES") (statements (trace (get_all_tables db))))
  /\ (forall db,
         Forall (fun q => q = "SHOW TABLES")
                (statements (trace (list_schemas db))))
  /\ (forall table_name db,
         Forall (fun q => q = "DESCRIBE `" ++ table_name ++ "`"
                          \/ q = "SHOW CREATE TABLE `" ++ table_name ++ "`")
                (statements (trace (get_table_schema table_name db))))
  /\ (forall db,
         Forall (fun q => q = "SHOW TABLES"
                          \/ exists table, q = key_usage_stmt table)
                (statements (trace (get_relationships db))))
  /\ (forall table_name db,
         Forall (fun q =>
                   q = "SHOW TABLES LIKE %s"
                   \/ q = "SELECT COUNT(*) as count FROM `" ++ table_name
                          ++ "`"
                   \/ q = "DESCRIBE `" ++ table_name ++ "`"
                   \/ exists col_name,
                       q = NL ++ "                            SELECT " ++ NL
                           ++ "                                MIN(`" ++ col_name ++ "`) as min_val,"
                           ++ NL
                           ++ "                                MAX(`" ++ col_name ++ "`) as max_val,"
                           ++ NL
                           ++ "                                AVG(`" ++ col_name ++ "`) as avg_val,"
                           ++ NL
                           ++ "                                STD(`" ++ col_name ++ "`) as std_val"
                           ++ NL
                           ++ "                            FROM `" ++ table_name ++ "`" ++ NL
                           ++ "                        "
                       \/ q = NL ++ "                            SELECT " ++ NL
                              ++ "                                COUNT(DISTINCT `" ++ col_name
                              ++ "`) as unique_count," ++ NL
                              ++ "                                AVG(LENGTH(`" ++ col_name
                              ++ "`)) as avg_length" ++ NL
                              ++ "                            FROM `" ++ table_name ++ "`" ++ NL
                              ++ "                        "
                       \/ q = NL ++ "                            SELECT COUNT(DISTINCT `" ++ col_name
                              ++ "`) as unique_count" ++ NL
                              ++ "                            FROM `" ++ table_name ++ "`" ++ NL
                              ++ "                        ")
                (statements (trace (table_statistics table_name db))))
  /\ (forall table_name db,
         db_acquire db = None ->
         hd_error (statements (trace (get_table_schema table_name db)))
         = Some ("DESCRIBE `" ++ table_name ++ "`"))
  /\ (forall db db1 fields name rest tables,
         db_acquire db = None ->
         db_execute db "SHOW TABLES" []
         = (Result fields ((VStr name :: rest) :: tables), db1) ->
         nth_error (statements (trace (get_relationships db))) 1
         = Some (key_usage_stmt name)).
Proof.
  intros schema key_usage_stmt.
  destruct handlers_statement_forms as (Hall & Hlist & Hschema & Hrel & Hstat).
  repeat apply conj.
  - exact Hall.
  - exact Hlist.
  - exact Hschema.
  - intros db. apply (Forall_impl _ (P := fun q => q = "SHOW TABLES"
                                                  \/ exists table,
                                                      q = fk_stmt table));
      [|apply Hrel].
    intros q [->|(table & ->)]; [now left | right].
    exists table. apply fk_stmt_text.
  - intros table_name db.
    apply (Forall_impl _ (about_table_text table_name)). apply Hstat.
  - intros table_name db Hacq. unfold get_table_schema.
    rewrite (with_connection_released _ _ Hacq), bind_execute.
    unfold describe_stmt.
    destruct (db_execute db _ []) as [[f columns|e] d1]; reflexivity.
  - intros db db1 fields name rest tables Hacq Hshow.
    unfold get_relationships.
    rewrite (with_connection_released _ _ Hacq), bind_execute, Hshow.
    unfold trace at 1. cbn [snd]. unfold fetchall.
    destruct (relations_loop_first (VStr name) rest tables RELATIONS_TITLE
                                   false db1) as (r & tl & Hfirst).
    match goal with
    | |- context [trace (bind ?m ?k ?d)] =>
      destruct (trace_bind_head m k d _ _ Hfirst) as (tl' & ->)
    end.
    cbn [app statements nth_error py_str]. now rewrite fk_stmt_text.
Qed.

End Gateway.

Arguments outcome {DB A} x.
Arguments final {DB A} x.
Arguments trace {DB A} x.

(* ================================================================== *)
(** ** The handlers on a scripted server *)

Module Shop.

(** The library functions on the values of the runs below: [repr()] of a
    [str] without quote, backslash or non-printing character; [json.dumps]
    of a list of integers; [round(float(x), 2)] of the aggregates the
    script holds. *)
Definition sample_repr (v : value) : string :=
  match v with
  | VStr s => "'" ++ s ++ "'"
  | _ => py_str (fun _ => "") v
  end.

Definition sample_json (v : value) : result string :=
  match v with
  | VList items =>
    (texts <~ (fix ints (l : list value) : result (list string) :=
                 match l with
                 | [] => Ok []
                 | VInt z :: t => (more <~ ints t ;; Ok (dec_of_Z z :: more))
                 | x :: _ =>
                   Raise (Exn "TypeError"
                              ("Object of type " ++ type_name x
                               ++ " is not JSON serializable"))
                 end) items ;;
     Ok ("[" ++ join ", " texts ++ "]"))%result
  | _ => Raise (Exn "TypeError"
                    ("Object of type " ++ type_name v
                     ++ " is not JSON serializable"))
  end.

Definition sample_round2 (v : value) : result value :=
  match v with
  | VObj _ _ text =>
    if String.eqb text "5.0000" then Ok (VObj "float" true "5.0")
    else if String.eqb text "1.5000" then Ok (VObj "float" true "1.5")
    else Ok v
  | _ => Ok v
  end.

Definition DB_NAME : option string := Some "shop".

Definition no_such_table : exn :=
  Exn "ProgrammingError" "(1146, 'Table does not exist')".

Definition describe_fields : list string :=
  ["Field"; "Type"; "Null"; "Key"; "Default"; "Extra"].

(** Two tables, [users] and [orders], and one foreign key from
    [orders.user_id] to [users.id]; [readings] has one column, whose two
    values are equal. *)
Definition shop : Scripted.server := {|
  Scripted.tables := ["users"; "orders"; "readings"];
  Scripted.script :=
    [ ("SHOW TABLES",
       Result ["Tables_in_shop"]
              [[VStr "users"]; [VStr "orders"]; [VStr "readings"]]);
      (fk_stmt DB_NAME "users", Result [] []);
      (fk_stmt DB_NAME "orders",
       Result ["table_name"; "column_name"; "constraint_name";
               "referenced_table_name"; "referenced_column_name"]
              [[VStr "orders"; VStr "user_id"; VStr "fk_orders_user";
                VStr "users"; VStr "id"]]);
      (fk_stmt DB_NAME "readings", Result [] []);
      ("select id, name, tags from users LIMIT 100",
       Result ["id"; "name"; "tags"]
              [[VInt 1; VStr "a|b"; VList [VInt 1; VInt 2]];
               [VInt 2; VNone; VList []]]);
      ("select id from users where id < 0 LIMIT 100", Result ["id"] []);
      (count_stmt "readings", Result ["count"] [[VInt 2]]);
      (describe_stmt "readings",
       Result describe_fields
              [[VStr "n"; VStr "int"; VStr "YES"; VStr ""; VNone; VStr ""]]);
      (numeric_stmt "n" "readings",
       Result ["min_val"; "max_val"; "avg_val"; "std_val"]
              [[VInt 5; VInt 5; VObj "Decimal" true "5.0000";
                VObj "float" false "0.0"]]);
      (count_stmt "orders", Result ["count"] [[VInt 0]]);
      (describe_stmt "orders",
       Result describe_fields
              [[VStr "id"; VStr "int"; VStr "NO"; VStr "PRI"; VNone;
                VStr "auto_increment"];
               [VStr "user_id"; VStr "int"; VStr "NO"; VStr "MUL"; VNone;
                VStr ""]]);
      (numeric_stmt "id" "orders",
       Result ["min_val"; "max_val"; "avg_val"; "std_val"]
              [[VNone; VNone; VNone; VNone]]) ];
  Scripted.unknown := no_such_table;
  Scripted.pool_error := None
|}.

(** The same database without its foreign key. *)
Definition plain : Scripted.server := {|
  Scripted.tables := ["users"; "orders"];
  Scripted.script :=
    [ ("SHOW TABLES",
       Result ["Tables_in_shop"] [[VStr "users"]; [VStr "orders"]]);
      (fk_stmt DB_NAME "users", Result [] []);
      (fk_stmt DB_NAME "orders", Result [] []) ];
  Scripted.unknown := no_such_table;
  Scripted.pool_error := None
|}.

Definition run_schema : string -> M Scripted.server string :=
  get_table_schema Scripted.server Scripted.acquire Scripted.answer sample_repr.

Definition run_relationships : M Scripted.server string :=
  get_relationships Scripted.server Scripted.acquire Scripted.answer DB_NAME
                    sample_repr.

Definition run_query : string -> option Z -> M Scripted.server string :=
  query_data Scripted.server Scripted.acquire Scripted.answer sample_repr
             sample_json.

Definition run_statistics : string -> M Scripted.server string :=
  table_statistics Scripted.server Scripted.acquire Scripted.answer
                   sample_repr sample_round2.

End Shop.

Import Shop.

(** A server that answers the statement of [get_relationships] as it
    reads: from a list of key usages, it gives for a schema and a table the
    rows whose referenced schema is that schema and whose table is that
    table. *)
Module Keys.


Definition fields : list string :=
  ["table_name"; "column_name"; "constraint_name"; "referenced_table_name";
   "referenced_column_name"].




Definition tables : list string := ["users"; "orders"; "items"].



End Keys.

(** A server on which the library functions fail: a [list] cell that holds
    a [Decimal], which [json.dumps] refuses, and an aggregate that is a
    [str], which [float()] refuses. *)
Module Faults.

Definition faulty_round2 (v : value) : result value :=
  match v with
  | VStr s =>
    Raise (Exn "ValueError"
               ("could not convert string to float: " ++ sample_repr v))
  | _ => sample_round2 v
  end.

Definition aggregates (col_name table_name : string) : string :=
  NL ++ "                            SELECT " ++ NL
  ++ "                                MIN(`" ++ col_name ++ "`) as min_val,"
  ++ NL
  ++ "                                MAX(`" ++ col_name ++ "`) as max_val,"
  ++ NL
  ++ "                                AVG(`" ++ col_name ++ "`) as avg_val,"
  ++ NL
  ++ "                                STD(`" ++ col_name ++ "`) as std_val"
  ++ NL
  ++ "                            FROM `" ++ table_name ++ "`" ++ NL
  ++ "                        ".

Definition aggregate_fields : list string :=
  ["min_val"; "max_val"; "avg_val"; "std_val"].

Definition items : Scripted.server := {|
  Scripted.tables := ["items"];
  Scripted.script :=
    [ ("select id, tags from items LIMIT 100",
       Result ["id"; "tags"]
              [[VInt 1; VList [VInt 7]];
               [VInt 2; VList [VObj "Decimal" true "1.5"]];
               [VInt 3; VList []]]);
      ("SELECT COUNT(*) as count FROM `items`", Result ["count"] [[VInt 3]]);
      ("DESCRIBE `items`",
       Result describe_fields
              [[VStr "id"; VStr "int"; VStr "NO"; VStr "PRI"; VNone;
                VStr "auto_increment"];
               [VStr "price"; VStr "decimal(10,2)"; VStr "YES"; VStr "";
                VNone; VStr ""];
               [VStr "tags"; VStr "json"; VStr "YES"; VStr ""; VNone;
                VStr ""]]);
      (aggregates "id" "items",
       Result aggregate_fields
              [[VInt 1; VInt 3; VObj "Decimal" true "2.0000";
                VObj "float" true "0.816496580927726"]]);
      (aggregates "price" "items",
       Result aggregate_fields
              [[VStr "n/a"; VStr "n/a"; VStr "n/a"; VNone]]) ];
  Scripted.unknown := no_such_table;
  Scripted.pool_error := None
|}.

Definition run_query : string -> option Z -> M Scripted.server string :=
  query_data Scripted.server Scripted.acquire Scripted.answer sample_repr
             sample_json.

Definition run_statistics : string -> M Scripted.server string :=
  table_statistics Scripted.server Scripted.acquire Scripted.answer
                   sample_repr faulty_round2.

End Faults.

Example run_query_table :
  outcome (run_query " select id, name, tags from users " (Some 100%Z) shop)
  = Ok ("查询结果 (2 行):" ++ NL ++ NL
        ++ "| id | name | tags |" ++ NL
        ++ "| --- | --- | --- |" ++ NL
        ++ "| 1 | a\|b | [1, 2] |" ++ NL
        ++ "| 2 | NULL | [] |" ++ NL).
Proof. reflexivity. Qed.

Example run_relationships_shop :
  outcome (run_relationships shop)
  = Ok (RELATIONS_TITLE
        ++ relation_head "orders"
        ++ "| user_id | fk_orders_user | users | id |" ++ NL ++ NL).
Proof. reflexivity. Qed.

(** A column whose two values are both 5: the server gives 5.0000 for the
    mean and the float zero for the deviation, and the report shows the
    deviation as [None]. *)
Example run_statistics_constant_column :
  outcome (run_statistics "readings" shop)
  = Ok ("# 表 'readings' 统计信息" ++ NL ++ NL
        ++ "总行数: 2" ++ NL ++ NL
        ++ "## 数值列统计" ++ NL ++ NL
        ++ "| 列名 | 类型 | 最小值 | 最大值 | 平均值 | 标准差 |" ++ NL
        ++ "| ---- | ---- | ------ | ------ | ------ | ------ |" ++ NL
        ++ "| n | int | 5 | 5 | 5.0 | None |" ++ NL ++ NL).
Proof. reflexivity. Qed.

(** C1, on an input: a [DROP] with leading blanks is rejected and the
    server is not touched. *)
Lemma query_data_rejects_non_select_witness :
  is_select (strip "  drop table users") = false
  /\ run_query "  drop table users" (Some 100%Z) shop
     = (Ok REJECTED, shop, []).
Proof.
  split; [reflexivity|].
  apply (query_data_rejects_non_select
           Scripted.server Scripted.acquire Scripted.answer sample_repr
           sample_json "  drop table users" (Some 100%Z) shop).
  reflexivity.
Defined.

(** C2, on an input: the default bound is appended once to the trimmed
    text. *)
Lemma query_data_limit_clause_witness :
  statements
    (trace (run_query " select id, name, tags from users " (Some 100%Z) shop))
  = ["select id, name, tags from users LIMIT 100"]
  /\ occurrences "limit" "select id, name, tags from users limit 100" = 1.
Proof.
  exact (proj1 (query_data_limit_clause
                  Scripted.server Scripted.acquire Scripted.answer
                  sample_repr sample_json
                  " select id, name, tags from users " (Some 100%Z) shop
                  eq_refl eq_refl)
               100%Z eq_refl eq_refl).
Defined.

(** C3 as the specification states it does not hold: [ghost] is no table
    of the database, and [get_table_schema] returns no message for it; the
    outcome is the server's error, raised. *)
Lemma get_table_schema_returns_no_message :
  ~ In "ghost" (Scripted.tables shop)
  /\ outcome (run_schema "ghost" shop) = Raise no_such_table
  /\ ~ (exists text, outcome (run_schema "ghost" shop) = Ok text).
Proof.
  split; [|split].
  - intros [H|[H|[H|[]]]]; discriminate H.
  - reflexivity.
  - intros [text H]. vm_compute in H. discriminate H.
Qed.

Lemma get_table_schema_raises_server_error_witness :
  run_schema "ghost" shop
  = (Raise no_such_table, shop,
     [EvAcquire; EvExecute "DESCRIBE `ghost`" [] (Failure no_such_table);
      EvRelease]).
Proof.
  apply (get_table_schema_raises_server_error
           Scripted.server Scripted.acquire Scripted.answer sample_repr
           "ghost" shop shop no_such_table); reflexivity.
Defined.

(** C5, at the input where the code leaves the claim. [user_] is no table
    of the database, but as a pattern it matches [users]: the existence
    check is passed, the count is sent for [user_], which the server
    rejects, and the caller gets the text of that error instead of the
    not-found message. *)
Theorem wildcard_name_passes_existence_check :
  ~ In "user_" (Scripted.tables shop)
  /\ run_statistics "user_" shop
     = (Ok (statistics_error no_such_table), shop,
        [EvAcquire;
         EvExecute "SHOW TABLES LIKE %s" ["user_"]
                   (Result ["Tables_in_db"] [[VStr "users"]]);
         EvExecute "SELECT COUNT(*) as count FROM `user_`" []
                   (Failure no_such_table);
         EvRelease])
  /\ outcome (run_statistics "user_" shop) <> Ok (not_found "user_").
Proof.
  split; [|split].
  - intros [H|[H|[H|[]]]]; discriminate H.
  - reflexivity.
  - vm_compute. discriminate.
Qed.

(** C6, on inputs.  The statistic statement of the second column of
    [orders] is rejected, and the caller gets the error text alone, though
    the first column had been computed.  [json.dumps] fails on a cell of
    the second row of a result set, and the caller gets the error text
    alone, with nothing of the first row.  The rounding fails for the
    second column of [items], and the caller gets the error text alone.
    A row shorter than the first lacks a column, which is a [KeyError]. *)
Lemma errors_become_text_witness :
  outcome (run_statistics "orders" shop)
  = Ok "获取统计信息错误: (1146, 'Table does not exist')"
  /\ outcome (Faults.run_query "select id, tags from items" (Some 100%Z)
                               Faults.items)
     = Ok "查询执行错误: Object of type Decimal is not JSON serializable"
  /\ outcome (Faults.run_statistics "items" Faults.items)
     = Ok "获取统计信息错误: could not convert string to float: 'n/a'"
  /\ outcome (column_stat Scripted.server Scripted.answer sample_repr
                          Faults.faulty_round2 "items"
                          [VStr "price"; VStr "decimal(10,2)"] Faults.items)
     = Raise (Exn "ValueError" "could not convert string to float: 'n/a'")
  /\ format_row sample_repr sample_json ["id"; "tags"]
                (dict_zip ["id"; "tags"] [VInt 4])
     = Raise (Exn "KeyError" "'tags'").
Proof.
  split; [|split; [|split; [|split]]].
  - assert (Hin : In (EvExecute (numeric_stmt "user_id" "orders") []
                                (Failure no_such_table))
                     (trace (run_statistics "orders" shop))).
    { vm_compute. do 5 right. left. reflexivity. }
    exact (proj1 (proj2 (proj2 (proj2
             (errors_become_text Scripted.server Scripted.acquire
                                 Scripted.answer sample_repr sample_json
                                 sample_round2))))
             "orders" shop _ _ _ _ Hin).
  - pose proof (errors_become_text Scripted.server Scripted.acquire
                                   Scripted.answer sample_repr sample_json
                                   sample_round2)
      as (_ & _ & _ & _ & _ & _ & _ & _ & _ & _ & Hrow & _).
    unfold Faults.run_query.
    rewrite (Hrow "select id, tags from items" (Some 100%Z) Faults.items
                  Faults.items ["id"; "tags"] [[VInt 1; VList [VInt 7]]]
                  [VInt 2; VList [VObj "Decimal" true "1.5"]]
                  [[VInt 3; VList []]] "TypeError"
                  "Object of type Decimal is not JSON serializable"
                  eq_refl eq_refl eq_refl);
      [reflexivity | | reflexivity].
    repeat constructor. eexists. reflexivity.
  - pose proof (errors_become_text Scripted.server Scripted.acquire
                                   Scripted.answer sample_repr sample_json
                                   Faults.faulty_round2)
      as (_ & _ & _ & _ & _ & _ & _ & _ & _ & _ & _ & _ & Hcol & _).
    unfold Faults.run_statistics.
    rewrite (Hcol "items" Faults.items Faults.items Faults.items Faults.items
                  Faults.items Faults.items ["Tables_in_db"] ["count"]
                  describe_fields (VStr "items") [] [] [[VInt 3]]
                  [[VStr "id"; VStr "int"; VStr "NO"; VStr "PRI"; VNone;
                    VStr "auto_increment"]]
                  [VStr "price"; VStr "decimal(10,2)"; VStr "YES"; VStr "";
                   VNone; VStr ""]
                  [[VStr "tags"; VStr "json"; VStr "YES"; VStr ""; VNone;
                    VStr ""]]
                  _ _ _ "ValueError"
                  "could not convert string to float: 'n/a'"
                  eq_refl eq_refl eq_refl eq_refl eq_refl eq_refl).
    reflexivity.
  - pose proof (errors_become_text Scripted.server Scripted.acquire
                                   Scripted.answer sample_repr sample_json
                                   Faults.faulty_round2)
      as (_ & _ & _ & _ & _ & _ & _ & _ & _ & _ & _ & _ & _ & Hround & _).
    apply (Hround "items" "price" "decimal(10,2)" [] Faults.items
                  Faults.items Faults.aggregate_fields (VStr "n/a")
                  (VStr "n/a") (VStr "n/a") [VNone] []);
      reflexivity.
  - pose proof (errors_become_text Scripted.server Scripted.acquire
                                   Scripted.answer sample_repr sample_json
                                   sample_round2)
      as (_ & _ & _ & _ & _ & _ & _ & _ & _ & _ & _ & Hcell & _).
    apply (proj1 (Hcell (dict_zip ["id"; "tags"] [VInt 4]) ["id"] "tags" []
                        ltac:(repeat constructor; now exists (VInt 4), "4")));
      reflexivity.
Defined.

(** C7, on inputs. *)
Lemma result_rendering_witness :
  outcome (run_query "select id from users where id < 0" (Some 100%Z) shop)
  = Ok NO_ROWS
  /\ format_cell sample_repr sample_json (VStr "a|b") = Ok "a\|b"
  /\ format_cell sample_repr sample_json (VList [VInt 1; VInt 2])
     = Ok "[1, 2]".
Proof.
  pose proof (result_rendering Scripted.server Scripted.acquire
                               Scripted.answer sample_repr sample_json)
    as (_ & Hjson & Hstr & _ & _ & Hnone & _).
  split; [|split].
  - exact (Hnone "select id from users where id < 0" (Some 100%Z) shop shop
                 ["id"] eq_refl eq_refl eq_refl).
  - apply (Hstr (VStr "a|b")); [discriminate | reflexivity].
  - apply (Hjson (VList [VInt 1; VInt 2])). reflexivity.
Defined.


(** C9, on an input: [user_] is no table, matches [users] as a pattern, the
    count goes to [user_], and the answer is not the not-found message. *)
Lemma existence_check_is_pattern_match_witness :
  ~ In "user_" (Scripted.tables shop)
  /\ Scripted.like "user_" "users" = true
  /\ (exists r tail,
         trace (run_statistics "user_" shop)
         = EvAcquire
             :: EvExecute "SHOW TABLES LIKE %s" ["user_"]
                          (Result ["Tables_in_db"] [[VStr "users"]])
             :: EvExecute "SELECT COUNT(*) as count FROM `user_`" [] r
             :: tail)
  /\ outcome (run_statistics "user_" shop) <> Ok "错误: 表 'user_' 不存在".
Proof.
  split; [intros [H|[H|[H|[]]]]; discriminate H|].
  split; [reflexivity|].
  pose proof (existence_check_is_pattern_match
                Scripted.server Scripted.acquire Scripted.answer sample_repr
                sample_round2 "user_" shop shop ["Tables_in_db"]
                [VStr "users"] []) as H.
  cbv zeta in H.
  destruct H as (Hcount & _ & _ & Hfound);
    [reflexivity | reflexivity | discriminate |].
  split; [exact Hcount | exact Hfound].
Defined.

(** C10, on inputs: an [ENUM] whose labels hold a numeric and a text
    token, and [point]. *)
Lemma classification_order_witness :
  has_token NUMERIC_TOKENS (lower "ENUM('int','char')") = true
  /\ has_token TEXT_TOKENS (lower "ENUM('int','char')") = true
  /\ classify "ENUM('int','char')" = Numeric
  /\ classify "point" = Numeric
  /\ classify "varchar(255)" = Text
  /\ classify "datetime" = Other.
Proof.
  pose proof (classification_order Scripted.server Scripted.answer sample_repr
                                   sample_round2)
    as (Hboth & Hint & Hpoint & Htext & Hother & _).
  split; [reflexivity|]. split; [reflexivity|].
  split; [apply Hboth; reflexivity|]. split; [exact Hpoint|].
  split; [apply Htext; reflexivity | apply Hother; reflexivity].
Defined.

(* ================================================================== *)
(** ** Further runs on scripted servers *)

Module Catalog.

(** A database with the tables [users] and [orders]; the script holds the
    description and the creation statement of [users], and a selection
    whose cells are plain. *)
Definition users_ddl : string :=
  "CREATE TABLE `users` (`id` int NOT NULL, `name` varchar(50) DEFAULT '')".

Definition catalog : Scripted.server := {|
  Scripted.tables := ["users"; "orders"];
  Scripted.script :=
    [ ("SHOW TABLES",
       Result ["Tables_in_shop"] [[VStr "users"]; [VStr "orders"]]);
      (describe_stmt "users",
       Result describe_fields
              [[VStr "id"; VStr "int"; VStr "NO"; VStr "PRI"; VNone;
                VStr "auto_increment"];
               [VStr "name"; VStr "varchar(50)"; VStr "YES"; VStr "";
                VStr ""; VStr ""]]);
      (show_create_stmt "users",
       Result ["Table"; "Create Table"] [[VStr "users"; VStr users_ddl]]);
      ("SeLeCt id, name from users; DROP TABLE users LIMIT 100",
       Result ["id"; "name"] [[VInt 1; VStr "ann"]; [VInt 2; VNone]]) ];
  Scripted.unknown := no_such_table;
  Scripted.pool_error := None
|}.

Definition run_all_tables : M Scripted.server string :=
  get_all_tables Scripted.server Scripted.acquire Scripted.answer sample_repr.



End Catalog.

Import Catalog.

Lemma get_all_tables_lists_catalog_witness :
  run_all_tables catalog
  = (Ok ("- users" ++ NL ++ "- orders"), catalog,
     [EvAcquire;
      EvExecute "SHOW TABLES" []
                (Result ["Tables_in_shop"] [[VStr "users"]; [VStr "orders"]]);
      EvRelease]).
Proof.
  apply (get_all_tables_lists_catalog
           Scripted.server Scripted.acquire Scripted.answer sample_repr
           catalog catalog ["Tables_in_shop"]
           [[VStr "users"]; [VStr "orders"]]); try reflexivity.
  repeat constructor; discriminate.
Defined.


(** The default of [name] is the empty text, and is shown as [NULL], like
    the missing default of [id]. *)
Lemma get_table_schema_describes_witness :
  outcome (run_schema "users" catalog)
  = Ok ("# 表结构: users" ++ NL ++ NL
        ++ "## 列信息" ++ NL ++ NL
        ++ "| 字段名 | 类型 | 可为空 | 键 | 默认值 | 额外信息 |" ++ NL
        ++ "| ------ | ---- | ------ | -- | ------ | -------- |" ++ NL
        ++ "| id | int | NO | PRI | NULL | auto_increment |" ++ NL
        ++ "| name | varchar(50) | YES |  | NULL |  |" ++ NL
        ++ NL ++ "## 创建语句" ++ NL ++ NL ++ "```sql" ++ NL
        ++ users_ddl ++ NL ++ "```" ++ NL).
Proof.
  unfold run_schema.
  rewrite (get_table_schema_describes
             Scripted.server Scripted.acquire Scripted.answer sample_repr
             "users" catalog catalog catalog describe_fields
             ["Table"; "Create Table"]
             [[VStr "id"; VStr "int"; VStr "NO"; VStr "PRI"; VNone;
               VStr "auto_increment"];
              [VStr "name"; VStr "varchar(50)"; VStr "YES"; VStr "";
               VStr ""; VStr ""]]
             [VStr "users"; VStr users_ddl] []); try reflexivity.
  all: first [ cbn; lia | repeat (constructor; [cbn; lia|]); constructor ].
Defined.

(** [readings] is described, but the script has no creation statement for
    it: the second statement is rejected and the handler raises. *)
Lemma resource_handlers_raise_witness :
  In (EvExecute (show_create_stmt "readings") [] (Failure no_such_table))
     (trace (run_schema "readings" shop))
  /\ outcome (run_schema "readings" shop) = Raise no_such_table.
Proof.
  assert (Hin : In (EvExecute (show_create_stmt "readings") []
                              (Failure no_such_table))
                   (trace (run_schema "readings" shop))).
  { vm_compute. do 2 right. left. reflexivity. }
  split; [exact Hin|].
  exact (proj1 (proj2 (proj2
           (resource_handlers_raise Scripted.server Scripted.acquire
                                    Scripted.answer DB_NAME sample_repr)))
           "readings" shop _ _ _ Hin).
Defined.

(** A second statement after the keyword goes to the server with the
    first. *)
Lemma select_prefix_passes_guard_witness :
  strip ("SeLeCt" ++ " id, name from users; DROP TABLE users  ")
  = "SeLeCt id, name from users; DROP TABLE users"
  /\ statements
       (trace (run_query ("SeLeCt" ++ " id, name from users; DROP TABLE users  ")
                         (Some 100%Z) catalog))
     = ["SeLeCt id, name from users; DROP TABLE users LIMIT 100"].
Proof.
  exact (select_prefix_passes_guard
           Scripted.server Scripted.acquire Scripted.answer sample_repr
           sample_json "SeLeCt" " id, name from users; DROP TABLE users  "
           (Some 100%Z) catalog eq_refl eq_refl).
Defined.

Lemma plain_rows_always_render_witness :
  exists lines,
    length lines = 2
    /\ Forall2 (fun r l =>
                  format_row sample_repr sample_json ["id"; "name"]
                             (dict_zip ["id"; "name"] r) = Ok l)
               [[VInt 1; VStr "ann"]; [VInt 2; VNone]] lines
    /\ outcome (run_query "SeLeCt id, name from users; DROP TABLE users"
                          (Some 100%Z) catalog)
       = Ok ("查询结果 (2 行):" ++ NL ++ NL
             ++ ("| id | name |" ++ NL ++ "| --- | --- |" ++ NL)
             ++ String.concat "" lines).
Proof.
  destruct (plain_rows_always_render
              Scripted.server Scripted.acquire Scripted.answer sample_repr
              sample_json "SeLeCt id, name from users; DROP TABLE users"
              (Some 100%Z) catalog catalog ["id"; "name"]
              [VInt 1; VStr "ann"] [[VInt 2; VNone]])
    as (lines & Hlen & HF & Hout); try reflexivity.
  - repeat constructor.
  - repeat constructor.
  - exists lines. split; [exact Hlen|]. split; [|exact Hout].
    revert HF. apply Forall2_impl. now intros r l [H _].
Defined.


(** [ghost] matches no table of the catalog. *)
Lemma table_statistics_not_found_witness :
  run_statistics "ghost" shop
  = (Ok (not_found "ghost"), shop,
     [EvAcquire; EvExecute exists_stmt ["ghost"] (Result ["Tables_in_db"] []);
      EvRelease]).
Proof.
  apply (table_statistics_not_found
           Scripted.server Scripted.acquire Scripted.answer sample_repr
           sample_round2 "ghost" shop shop ["Tables_in_db"]); reflexivity.
Defined.

(* ================================================================== *)
(** ** The lifetime of the pool *)

Import Lifespan.

